(** * Workflow JSON converter: the extraction and description engine

    A shallow embedding of [processWorkflow] and [makeRow] of [src/App.jsx],
    together with the part of [handleFileUpload] that feeds them, over
    the values [JSON.parse] produces.  The program is untyped: every
    property read, optional chain, truthiness test and string conversion
    is modelled on arbitrary decoded values, and a [TypeError] raised by
    the JavaScript code is a [Throw] of the model. *)

From stdpp Require Import gmap strings list.

Local Open Scope string_scope.
Local Open Scope list_scope.

(** ** Values *)

(** A number is observed by this program through two operations only: its
    conversion to text (template literals, [join], property keys) and its
    truthiness.  The model carries exactly these two observations. *)
Record number := { num_text : string; num_truthy : bool }.

(** What [JSON.parse] returns.  An object is a finite map from its own
    property names to values (the decoder keeps one binding per key). *)
#[warnings="-register-all"]
Inductive JSON :=
| JNull
| JBool (b : bool)
| JNum (n : number)
| JStr (s : string)
| JArr (l : list JSON)
| JObj (fs : gmap string JSON).

(** A JavaScript value met by the program: a decoded value, or
    [undefined] (the result of reading a property that is not there). *)
Abbreviation value := (option JSON).
Abbreviation undefined := (@None JSON).

(** ** Exceptions *)

Inductive exn := TypeError.

Inductive result (A : Type) :=
| Return (a : A)
| Throw (e : exn).
Arguments Return {A} a.
Arguments Throw {A} e.

Definition bind {A B} (m : result A) (k : A -> result B) : result B :=
  match m with
  | Return a => k a
  | Throw e => Throw e
  end.

Notation "'do' x <- m ; k" := (bind m (fun x => k))
  (at level 10, x name, m at level 100, k at level 200).

Section Traversals.
Context {A B : Type} (f : A -> result B).

(** [Array.prototype.map] with a callback that may throw. *)
Fixpoint traverse (l : list A) : result (list B) :=
  match l with
  | [] => Return []
  | x :: r => do y <- f x; do ys <- traverse r; Return (y :: ys)
  end.
End Traversals.

Section Loops.
Context {A S : Type} (f : A -> S -> result S).

(** [Array.prototype.forEach] with a callback that updates a state and
    may throw: the loop stops at the first exception. *)
Fixpoint iterate (l : list A) (s : S) : result S :=
  match l with
  | [] => Return s
  | x :: r => do s' <- f x s; iterate r s'
  end.
End Loops.

(** ** Property access *)

(** [o.k] for the property names the program reads
    ([parameterRequests], [stageRequests], [taskRequests], [name], [label],
    [type], [data], [choices], [rules], [input], [show], [parameters],
    [mandatory], [verificationType]): none of them is defined on the
    prototypes of arrays, strings, numbers, booleans or objects, so only an
    object's own binding is found.  Reading a property of [null] throws. *)
Definition get (o : JSON) (k : string) : result value :=
  match o with
  | JNull => Throw TypeError
  | JObj fs => Return (fs !! k)
  | _ => Return undefined
  end.

(** [o?.k] for the same property names: [undefined] when [o] is
    [undefined] or [null], never an exception. *)
Definition getOpt (o : value) (k : string) : value :=
  match o with
  | Some (JObj fs) => fs !! k
  | _ => undefined
  end.

(** ToBoolean. *)
Definition truthy (v : value) : bool :=
  match v with
  | None | Some JNull => false
  | Some (JBool b) => b
  | Some (JNum n) => num_truthy n
  | Some (JStr s) => negb (String.eqb s "")
  | Some (JArr _) | Some (JObj _) => true
  end.

(** [v?.length] used as a condition.  Arrays and strings have a length of
    their own, an object may hold a [length] property, and everything
    else has none. *)
Definition hasLength (v : value) : bool :=
  match v with
  | Some (JArr l) => negb (Nat.eqb (length l) 0)
  | Some (JStr s) => negb (String.eqb s "")
  | Some (JObj fs) => truthy (fs !! "length")
  | _ => false
  end.

(** ** Conversion to text *)

(** ToString on a decoded value.  An array is converted by
    [Array.prototype.join] with a comma, where [null] entries give the
    empty text.  An object is converted by the inherited
    [Object.prototype.toString] unless it has a [toString] property of its
    own: a decoded property is never callable, [valueOf] gives back the
    object (or is not callable either), and the conversion throws. *)
Fixpoint ToString (v : JSON) : result string :=
  match v with
  | JNull => Return "null"
  | JBool b => Return (if b then "true" else "false")
  | JNum n => Return (num_text n)
  | JStr s => Return s
  | JArr l =>
      do parts <- traverse (fun x => match x with
                                     | JNull => Return ""
                                     | _ => ToString x
                                     end) l;
      Return (String.concat "," parts)
  | JObj fs =>
      match fs !! "toString" with
      | Some _ => Throw TypeError
      | None => Return "[object Object]"
      end
  end.

(** ToString on a value that may be [undefined]: what a template literal
    [`${v}`] and a property key [o[v]] make of it. *)
Definition textOf (v : value) : result string :=
  match v with
  | None => Return "undefined"
  | Some j => ToString j
  end.

(** One element inside [Array.prototype.join]. *)
Definition elementText (v : value) : result string :=
  match v with
  | None | Some JNull => Return ""
  | Some j => ToString j
  end.

(** [l.join(sep)]. *)
Definition join (l : list value) (sep : string) : result string :=
  do parts <- traverse elementText l;
  Return (String.concat sep parts).

(** [v?.join(sep)]: [undefined] when [v] is [undefined] or [null]; a
    value that is not an array has no [join] to call. *)
Definition joinOpt (v : value) (sep : string) : result (option string) :=
  match v with
  | None | Some JNull => Return None
  | Some (JArr l) => do s <- join (Some <$> l) sep; Return (Some s)
  | Some _ => Throw TypeError
  end.

(** The text of an optional-chain result inside a template literal. *)
Definition interpolate (s : option string) : string :=
  match s with
  | Some s => s
  | None => "undefined"
  end.

(** ** Output rows (lines 98-119) *)

Record Row := {
  Stage_Name : value;
  Activity_Name : value;
  Performer : string;
  Activity_Description_in_detail : string;
  Validations_Conditions : string;
  Instruction_Title : value;
  Field_Type : string;
  Activity_Parameter_Type : value;
  Configuration_Feasibility : string;
  Configuration_Feasibility_Notes : string;
  Configuration_Status : string;
  Verification_Status : string;
  Tester_Comments : string;
  Verification_B_Status : string;
  Tester_Comments_B : string
}.

(** ** [makeRow] (lines 67-120) *)

(** The object literal [fieldLogic] (lines 68-78); [label] is the text of
    [param.label], which each of the nine template literals reads. *)
Definition fieldLogic (label : string) : gmap string string :=
  <["SINGLE_SELECT" := "Performer selects if " +:+ label +:+ "."]>
  (<["MULTISELECT" := "Performer selects one or more options for " +:+ label +:+ "."]>
  (<["CHECKLIST" := "Performer checks applicable items for " +:+ label +:+ "."]>
  (<["SINGLE_LINE" := "Performer enters " +:+ label +:+ "."]>
  (<["MULTI_LINE" := "Performer enters a detailed response for " +:+ label +:+ "."]>
  (<["FILE_UPLOAD" := "Performer uploads the required file(s) for " +:+ label +:+ "."]>
  (<["RESOURCE" := "Performer selects a resource for " +:+ label +:+ "."]>
  (<["DATE" := "Performer enters the date for " +:+ label +:+ "."]>
  (<["INSTRUCTION" := "Performer provides input for " +:+ label +:+ "."]> ∅)))))))).

(** What a property read on an object literal can find. *)
Inductive member :=
| Own (text : string)      (* a property of the literal *)
| Native (name : string)   (* a built-in function of Object.prototype *)
| Prototype                (* Object.prototype itself, through __proto__ *)
| Missing.                 (* undefined *)

(** The properties every object literal inherits from [Object.prototype]
    (ECMAScript, with the legacy accessors of its annex B). *)
Definition objectPrototype : gmap string member :=
  list_to_map
    [ ("constructor", Native "Object");
      ("hasOwnProperty", Native "hasOwnProperty");
      ("isPrototypeOf", Native "isPrototypeOf");
      ("propertyIsEnumerable", Native "propertyIsEnumerable");
      ("toLocaleString", Native "toLocaleString");
      ("toString", Native "toString");
      ("valueOf", Native "valueOf");
      ("__defineGetter__", Native "__defineGetter__");
      ("__defineSetter__", Native "__defineSetter__");
      ("__lookupGetter__", Native "__lookupGetter__");
      ("__lookupSetter__", Native "__lookupSetter__");
      ("__proto__", Prototype) ].

(** [literal[key]]: the own property first, then the prototype. *)
Definition lookupMember (literal : gmap string string) (key : string) : member :=
  match literal !! key with
  | Some s => Own s
  | None => default Missing (objectPrototype !! key)
  end.

(** The text a member turns into as the left operand of [+] with a string.
    The source text of a built-in function is the host's; it is given here
    as V8 prints it, and always starts with the keyword [function]. *)
Definition memberText (m : member) : string :=
  match m with
  | Own s => s
  | Native name => "function " +:+ name +:+ "() { [native code] }"
  | Prototype => "[object Object]"
  | Missing => "undefined"
  end.

(** [a.map((d) => d.name)] (lines 82 and 84). *)
Definition names (l : list JSON) : result (list value) :=
  traverse (fun d => get d "name") l.

(** The constant [options] (lines 80-85). *)
Definition options (param : JSON) : result string :=
  do data <- get param "data";
  match data with
  | Some (JArr l) => do ns <- names l; join ns " • "
  | _ =>
      match getOpt data "choices" with
      | Some (JArr l) => do ns <- names l; join ns " • "
      | _ => Return ""
      end
  end.

(** The text appended to the template (line 89); a string is truthy when
    it is not empty. *)
Definition optionsSuffix (options : string) : string :=
  if String.eqb options "" then "" else " Available Options: • " +:+ options.

(** The constant [desc] (lines 87-89). *)
Definition desc (fieldLogic : gmap string string) (param : JSON) (options : string)
  : result string :=
  do type <- get param "type";
  do key <- textOf type;
  Return (memberText (lookupMember fieldLogic key) +:+ optionsSuffix options).

(** The text of one rule (line 94). *)
Definition ruleText (param r : JSON) : result string :=
  do label <- get param "label";
  do label <- textOf label;
  do input <- get r "input";
  do input <- joinOpt input ", ";
  do show <- get r "show";
  do shown <- joinOpt (getOpt show "parameters") ", ";
  Return ("Visible if [" +:+ label +:+ "] is [" +:+ interpolate input
          +:+ "]. Shows parameters: [" +:+ interpolate shown +:+ "]").

(** The constant [rules] (lines 91-96): [param.rules || []] must be an
    array for [map] to be callable. *)
Definition rules (param : JSON) : result string :=
  do rs <- get param "rules";
  match (if truthy rs then rs else Some (JArr [])) with
  | Some (JArr l) =>
      do texts <- traverse (ruleText param) l;
      Return (String.concat "; " texts)
  | _ => Throw TypeError
  end.

(** [v === s] for a string literal [s]. *)
Definition strictEq (v : value) (s : string) : bool :=
  match v with
  | Some (JStr t) => String.eqb t s
  | _ => false
  end.

Definition makeRow (stage task : value) (param : JSON) : result Row :=
  do label <- get param "label";
  do labelText <- textOf label;
  do options <- options param;
  do desc <- desc (fieldLogic labelText) param options;
  do rules <- rules param;
  do mandatory <- get param "mandatory";
  do type <- get param "type";
  do verificationType <- get param "verificationType";
  Return {|
    Stage_Name := stage;
    Activity_Name := task;
    Performer := "Performer/Verifier";
    Activity_Description_in_detail := desc;
    Validations_Conditions := rules;
    Instruction_Title := label;
    Field_Type := if truthy mandatory then "Mandatory" else "Optional";
    Activity_Parameter_Type := type;
    Configuration_Feasibility := "Configurable";
    Configuration_Feasibility_Notes := "N/A";
    Configuration_Status := "Configured";
    Verification_Status :=
      if strictEq verificationType "SELF" || strictEq verificationType "BOTH"
      then "Enabled" else "Disabled";
    Tester_Comments := "N/A";
    Verification_B_Status :=
      if strictEq verificationType "BOTH" then "Enabled" else "Disabled";
    Tester_Comments_B := "N/A"
  |}.

(** ** [processWorkflow] (lines 51-65) *)

(** [a.forEach(f)]: only an array has a [forEach] to call. *)
Definition forEach {S} (a : value) (f : JSON -> S -> result S) (s : S) : result S :=
  match a with
  | Some (JArr l) => iterate f l s
  | _ => Throw TypeError
  end.

(** [a?.forEach(f)]. *)
Definition forEachOpt {S} (a : value) (f : JSON -> S -> result S) (s : S) : result S :=
  match a with
  | None | Some JNull => Return s
  | _ => forEach a f s
  end.

(** [csvRows.push(row)]. *)
Definition push (csvRows : list Row) (row : Row) : list Row := csvRows ++ [row].

(** The array [csvRows] is threaded through; when an exception escapes,
    the rows pushed so far are lost with it (the caller drops the array). *)
Definition processWorkflow (wf : JSON) (csvRows : list Row) : result (list Row) :=
  do parameterRequests <- get wf "parameterRequests";
  do csvRows <-
    (if hasLength parameterRequests then
       forEach parameterRequests
         (fun p csvRows =>
            do label <- get p "label";
            do row <- makeRow (Some (JStr "Create Job Form")) label p;
            Return (push csvRows row))
         csvRows
     else Return csvRows);
  do stageRequests <- get wf "stageRequests";
  forEachOpt stageRequests
    (fun stage csvRows =>
       do taskRequests <- get stage "taskRequests";
       forEachOpt taskRequests
         (fun task csvRows =>
            do parameterRequests <- get task "parameterRequests";
            forEachOpt parameterRequests
              (fun param csvRows =>
                 do stageName <- get stage "name";
                 do taskName <- get task "name";
                 do row <- makeRow stageName taskName param;
                 Return (push csvRows row))
              csvRows)
         csvRows)
    csvRows.

(** ** [handleFileUpload] (lines 22-49), after decoding *)

(** [Array.isArray(parsed) ? parsed : [parsed]] (lines 32 and 37). *)
Definition entries (parsed : JSON) : list JSON :=
  match parsed with
  | JArr l => l
  | _ => [parsed]
  end.

(** The array [jsonObjects] built from the decoded documents of an
    archive, in the order of its files (lines 29-33). *)
Definition jsonObjects (documents : list JSON) : list JSON :=
  concat (entries <$> documents).

(** Lines 40-41: a fresh [csvRows] filled by [processWorkflow], one
    workflow after the other.  A [Throw] is the exception that line 43
    catches, and no rows are shown. *)
Definition csvRows (jsonObjects : list JSON) : result (list Row) :=
  iterate processWorkflow jsonObjects [].


(** * The specification's vocabulary *)

(** The value of a field of a decoded object, [undefined] when the object
    has no such field or is not an object. *)
Definition field (o : JSON) (k : string) : value := getOpt (Some o) k.

(** The entries of a sequence-valued field: absent or not an array, it
    has none. *)
Definition entriesOf (v : value) : list JSON :=
  match v with
  | Some (JArr l) => l
  | _ => []
  end.

(** The tree walker's contexts [(stageLabel, taskLabel, parameter)], in
    the order the specification gives: the job-form parameters first, then
    stage by stage, task by task, parameter by parameter. *)
Definition jobFormContexts (wf : JSON) : list (value * value * JSON) :=
  (fun p => (Some (JStr "Create Job Form"), field p "label", p))
    <$> entriesOf (field wf "parameterRequests").

Definition taskContexts (stage task : JSON) : list (value * value * JSON) :=
  (fun p => (field stage "name", field task "name", p))
    <$> entriesOf (field task "parameterRequests").

Definition stageContexts (stage : JSON) : list (value * value * JSON) :=
  concat (taskContexts stage <$> entriesOf (field stage "taskRequests")).

Definition contexts (wf : JSON) : list (value * value * JSON) :=
  jobFormContexts wf
  ++ concat (stageContexts <$> entriesOf (field wf "stageRequests")).

(** The number of parameters of a workflow: the top-level ones plus, over
    every stage and every task, the task's. *)
Definition taskParameters (task : JSON) : nat :=
  length (entriesOf (field task "parameterRequests")).

Definition stageParameters (stage : JSON) : nat :=
  sum_list (taskParameters <$> entriesOf (field stage "taskRequests")).

Definition parameterCount (wf : JSON) : nat :=
  length (entriesOf (field wf "parameterRequests"))
  + sum_list (stageParameters <$> entriesOf (field wf "stageRequests")).

(** The row of a context. *)
Definition rowOf (c : value * value * JSON) : result Row :=
  makeRow c.1.1 c.1.2 c.2.

(** The nine recognized parameter types and their templates (the table
    of the description builder). *)
Definition templates : list (string * (string * string)) :=
  [ ("SINGLE_SELECT", ("Performer selects if ", "."));
    ("MULTISELECT", ("Performer selects one or more options for ", "."));
    ("CHECKLIST", ("Performer checks applicable items for ", "."));
    ("SINGLE_LINE", ("Performer enters ", "."));
    ("MULTI_LINE", ("Performer enters a detailed response for ", "."));
    ("FILE_UPLOAD", ("Performer uploads the required file(s) for ", "."));
    ("RESOURCE", ("Performer selects a resource for ", "."));
    ("DATE", ("Performer enters the date for ", "."));
    ("INSTRUCTION", ("Performer provides input for ", ".")) ].

Definition recognizedTypes : list string := templates.*1.

(** The template of a type with [{label}] replaced by [label]. *)
Definition template (type label : string) : option string :=
  (fun t => t.1 +:+ label +:+ t.2) <$> (list_to_map templates : gmap string _) !! type.

(** The options list of a parameter: the [name] fields of [data] when it
    is an array, else of [data.choices] when that is an array, else
    nothing. *)
Definition optionNames (param : JSON) : list value :=
  match field param "data" with
  | Some (JArr l) => (fun d => field d "name") <$> l
  | data =>
      match getOpt data "choices" with
      | Some (JArr l) => (fun d => field d "name") <$> l
      | _ => []
      end
  end.

(** ** Decoded documents of the expected shape

    A field of the data model is absent ([undefined] or [null]) or has the
    model's type: sequences are arrays of objects, and labels, types and
    names are scalars.  Nothing is asked of [mandatory], of
    [verificationType], of the names of stages and tasks, or of fields the
    program does not read. *)

Definition scalar (v : value) : bool :=
  match v with
  | Some (JArr _) | Some (JObj _) => false
  | _ => true
  end.

Definition sequenceOf (shaped : JSON -> bool) (v : value) : bool :=
  match v with
  | None | Some JNull => true
  | Some (JArr l) => forallb shaped l
  | Some _ => false
  end.

Definition shapedOption (d : JSON) : bool :=
  match d with
  | JObj fs => scalar (fs !! "name")
  | _ => false
  end.

Definition shapedData (data : value) : bool :=
  match data with
  | Some (JArr l) => forallb shapedOption l
  | _ =>
      match getOpt data "choices" with
      | Some (JArr l) => forallb shapedOption l
      | _ => true
      end
  end.

Definition shapedRule (r : JSON) : bool :=
  match r with
  | JObj fs =>
      sequenceOf (fun x => scalar (Some x)) (fs !! "input")
      && sequenceOf (fun x => scalar (Some x)) (getOpt (fs !! "show") "parameters")
  | _ => false
  end.

Definition shapedParameter (p : JSON) : bool :=
  match p with
  | JObj fs =>
      scalar (fs !! "label") && scalar (fs !! "type")
      && shapedData (fs !! "data")
      && sequenceOf shapedRule (if truthy (fs !! "rules") then fs !! "rules" else None)
  | _ => false
  end.

Definition shapedTask (task : JSON) : bool :=
  match task with
  | JObj fs => sequenceOf shapedParameter (fs !! "parameterRequests")
  | _ => false
  end.

Definition shapedStage (stage : JSON) : bool :=
  match stage with
  | JObj fs => sequenceOf shapedTask (fs !! "taskRequests")
  | _ => false
  end.

Definition shapedWorkflow (wf : JSON) : bool :=
  match wf with
  | JObj fs =>
      sequenceOf shapedParameter (fs !! "parameterRequests")
      && sequenceOf shapedStage (fs !! "stageRequests")
  | _ => false
  end.

(** * Sample documents *)

Module Samples.

Definition obj (l : list (string * JSON)) : JSON := JObj (list_to_map l).

(** The parameter of the options-rendering property. *)
Definition priority : JSON :=
  obj [ ("type", JStr "SINGLE_SELECT"); ("label", JStr "Priority");
        ("data", JArr [obj [("name", JStr "Low")]; obj [("name", JStr "High")]]) ].

(** The parameter of the rules-rendering property. *)
Definition status : JSON :=
  obj [ ("type", JStr "SINGLE_SELECT"); ("label", JStr "Status");
        ("verificationType", JStr "SELF");
        ("rules", JArr [obj [ ("input", JArr [JStr "Yes"]);
                              ("show", obj [("parameters", JArr [JStr "Comment"])]) ]]) ].

(** A rule with neither [input] nor [show]. *)
Definition bareRule : JSON :=
  obj [ ("type", JStr "SINGLE_LINE"); ("label", JStr "Status");
        ("rules", JArr [obj []]) ].

(** One option whose name is the empty string. *)
Definition blankOption : JSON :=
  obj [ ("type", JStr "SINGLE_SELECT"); ("label", JStr "P");
        ("data", JArr [obj [("name", JStr "")]]) ].

(** One option without a name. *)
Definition namelessOption : JSON :=
  obj [ ("type", JStr "DATE"); ("label", JStr "Due"); ("data", JArr [obj []]) ].

(** A [data] array with a [null] entry. *)
Definition nullOption : JSON :=
  obj [ ("type", JStr "DATE"); ("label", JStr "A"); ("data", JArr [JNull]) ].

(** A type that names a property of [Object.prototype]. *)
Definition inheritedType : JSON :=
  obj [ ("type", JStr "constructor"); ("label", JStr "X") ].

(** A type the table does not know. *)
Definition unknownType : JSON :=
  obj [ ("type", JStr "NUMBER"); ("label", JStr "X");
        ("data", obj [("choices", JArr [obj [("name", JStr "a")]])]) ].

(** The fields of a parameter without rules. *)
Definition due : gmap string JSON :=
  list_to_map [("type", JStr "DATE"); ("label", JStr "Due")].

Definition fullName : JSON :=
  obj [ ("type", JStr "SINGLE_LINE"); ("label", JStr "Full Name");
        ("mandatory", JBool true); ("verificationType", JStr "BOTH") ].

Definition review : JSON :=
  obj [ ("name", JStr "Review");
        ("taskRequests",
          JArr [ obj [ ("name", JStr "Approve");
                       ("parameterRequests", JArr [status; priority]) ];
                 obj [ ("name", JStr "Archive") ] ]) ].

Definition workflow : JSON :=
  obj [ ("parameterRequests", JArr [fullName]);
        ("stageRequests", JArr [review; obj [("name", JStr "Empty")]]) ].

(** A workflow whose first parameter is malformed and whose second is
    not. *)
Definition broken : JSON :=
  obj [ ("parameterRequests", JArr [nullOption; fullName]) ].

End Samples.


(** * The rows of a workflow, without the accumulator *)

(** What [a.forEach] adds to the rows when its body pushes what [g]
    computes, and the same for [a?.forEach]. *)
Definition gather {R} (g : JSON -> result (list R)) (a : value) : result (list R) :=
  match a with
  | Some (JArr l) => do rss <- traverse g l; Return (concat rss)
  | _ => Throw TypeError
  end.

Definition gatherOpt {R} (g : JSON -> result (list R)) (a : value) : result (list R) :=
  match a with
  | None | Some JNull => Return []
  | _ => gather g a
  end.

Definition jobFormRow (p : JSON) : result (list Row) :=
  do label <- get p "label";
  do row <- makeRow (Some (JStr "Create Job Form")) label p;
  Return [row].

Definition parameterRow (stage task param : JSON) : result (list Row) :=
  do stageName <- get stage "name";
  do taskName <- get task "name";
  do row <- makeRow stageName taskName param;
  Return [row].

Definition taskRows (stage task : JSON) : result (list Row) :=
  do parameterRequests <- get task "parameterRequests";
  gatherOpt (parameterRow stage task) parameterRequests.

Definition stageRows (stage : JSON) : result (list Row) :=
  do taskRequests <- get stage "taskRequests";
  gatherOpt (taskRows stage) taskRequests.

Definition workflowRows (wf : JSON) : result (list Row) :=
  do parameterRequests <- get wf "parameterRequests";
  do jobForm <- (if hasLength parameterRequests
                 then gather jobFormRow parameterRequests else Return []);
  do stageRequests <- get wf "stageRequests";
  do staged <- gatherOpt stageRows stageRequests;
  Return (jobForm ++ staged).

(** A loop body [f] that pushes onto the rows it is given what [g]
    computes from the element alone. *)
Definition pushes {A R} (f : A -> list R -> result (list R)) (g : A -> result (list R)) :=
  forall x s, f x s = do rs <- g x; Return (s ++ rs).

(** ** The rules of a parameter as the rule formatter words them *)

(** One rule, from the label of the owning parameter, the triggering
    values and the names of the parameters it shows. *)
Definition renderRule (label : string) (rule : list string * list string) : string :=
  "Visible if [" +:+ label +:+ "] is [" +:+ String.concat ", " rule.1
  +:+ "]. Shows parameters: [" +:+ String.concat ", " rule.2 +:+ "]".

(** * The upload handlers (lines 8-11, 22-49 and 122-131) *)

(** [s.endsWith(suffix)]. *)
Definition endsWith (s suffix : string) : bool :=
  let n := String.length s in
  let k := String.length suffix in
  Nat.leb k n && String.eqb (String.substring (n - k) k s) suffix.

(** The component's state (lines 8-11). *)
Record State := {
  rows : list Row;
  loading : bool;
  dragActive : bool;
  darkMode : bool
}.

Definition setRows (r : list Row) (st : State) : State :=
  {| rows := r; loading := loading st;
     dragActive := dragActive st; darkMode := darkMode st |}.

Definition setLoading (b : bool) (st : State) : State :=
  {| rows := rows st; loading := b;
     dragActive := dragActive st; darkMode := darkMode st |}.

Definition setDragActive (b : bool) (st : State) : State :=
  {| rows := rows st; loading := loading st;
     dragActive := b; darkMode := darkMode st |}.

(** The message of line 45. *)
Definition invalidFile : string :=
  "Invalid or unreadable file. Please upload a valid JSON/ZIP.".

Section Upload.
(** The browser and the libraries are taken as given: the name of a file,
    what [JSZip.loadAsync] and the [async("string")] of each entry give (in
    the order of [Object.keys(zip.files)]; [None] when the promise
    rejects), what [file.text()] gives, and [JSON.parse] ([None] when it
    throws). *)
Context {File : Type}.
Variable name : File -> string.
Variable archive : File -> option (list (option string)).
Variable text : File -> option string.
Variable parse : string -> option JSON.

(** The loop of lines 29-33 over the entries still to read, with the
    [jsonObjects] collected so far; [None] when an entry cannot be read
    or parsed. *)
Fixpoint readEntries (contents : list (option string)) (jsonObjects : list JSON)
  : option (list JSON) :=
  match contents with
  | [] => Some jsonObjects
  | content :: rest =>
      match content with
      | None => None
      | Some c =>
          match parse c with
          | None => None
          | Some parsed => readEntries rest (jsonObjects ++ entries parsed)
          end
      end
  end.

(** Lines 27-38: the workflows of a file, [None] when an exception
    leaves the [try] block. *)
Definition decode (file : File) : option (list JSON) :=
  if endsWith (name file) ".zip" then
    match archive file with
    | None => None
    | Some contents => readEntries contents []
    end
  else
    match text file with
    | None => None
    | Some t =>
        match parse t with
        | None => None
        | Some parsed => Some (entries parsed)
        end
    end.

(** [handleFileUpload] (lines 22-49), from the state before to the state
    after and the alerts shown.  Whatever is thrown inside [try], by the
    decoding or by [processWorkflow], is caught by line 43. *)
Definition handleFileUpload (file : File) (st : State) : State * list string :=
  let st := setLoading true st in
  let '(st, alerts) :=
    match decode file with
    | None => (st, [invalidFile])
    | Some jsonObjects =>
        match csvRows jsonObjects with
        | Return csvRows => (setRows csvRows st, [])
        | Throw _ => (st, [invalidFile])
        end
    end in
  (setLoading false st, alerts).

(** [handleDrop] (lines 122-131); [files] is [e.dataTransfer.files],
    [None] when it is missing. *)
Definition handleDrop (files : option (list File)) (st : State) : State * list string :=
  let st := setDragActive false st in
  match files ≫= head with
  | Some file => handleFileUpload file st
  | None => (st, [])
  end.

End Upload.

(** A browser and a decoder for trying the upload handlers: a file is
    known by its name, every archive holds the two entries "w" and "ws",
    every other file holds the text "w", and only these two texts
    parse. *)
Module UploadSamples.

Definition name (file : string) : string := file.

Definition archive (file : string) : option (list (option string)) :=
  Some [Some "w"; Some "ws"].

Definition text (file : string) : option string := Some "w".

Definition parse (s : string) : option JSON :=
  if String.eqb s "w" then Some Samples.workflow
  else if String.eqb s "ws" then Some (JArr [Samples.workflow; Samples.workflow])
  else None.

Definition idle : State :=
  {| rows := []; loading := false; dragActive := true; darkMode := false |}.

End UploadSamples.

(** * Reasoning about [result] *)

Lemma bind_Return {A B} (m : result A) (k : A -> result B) (b : B) :
  bind m k = Return b <-> exists a, m = Return a /\ k a = Return b.
Proof.
  destruct m as [a|e]; simpl; split.
  - eauto.
  - intros (a' & [= <-] & Hk). exact Hk.
  - discriminate.
  - intros (a' & Hm & _). discriminate.
Qed.

Lemma bind_assoc {A B C} (m : result A) (k : A -> result B) (h : B -> result C) :
  bind (bind m k) h = bind m (fun a => bind (k a) h).
Proof. destruct m; reflexivity. Qed.

Lemma bind_ext {A B} (m : result A) (k k' : A -> result B) :
  (forall a, k a = k' a) -> bind m k = bind m k'.
Proof. intros H. destruct m; simpl; auto. Qed.

Lemma bind_ret {A} (m : result A) : bind m Return = m.
Proof. destruct m; reflexivity. Qed.

(** Take a successful run apart, bind after bind. *)
Ltac unbind :=
  repeat match goal with
    | H : bind _ _ = Return _ |- _ =>
        apply bind_Return in H; destruct H as (? & ? & H)
    | H : Return _ = Return _ |- _ => injection H as H
    | H : Throw _ = Return _ |- _ => discriminate H
    end.

Section TraverseFacts.
Context {A B : Type}.
Implicit Types (f : A -> result B) (l : list A).

Lemma traverse_Return f l ys :
  traverse f l = Return ys <-> Forall2 (fun x y => f x = Return y) l ys.
Proof.
  revert ys. induction l as [|x l IH]; intros ys; simpl.
  - split.
    + intros [= <-]. constructor.
    + intros H. inversion H. reflexivity.
  - rewrite bind_Return. split.
    + intros (y & Hy & H). apply bind_Return in H as (zs & Hzs & [= <-]).
      constructor; [exact Hy | now apply IH].
    + intros H. inversion H as [|? y ? zs Hy Hzs]; subst.
      exists y. split; [exact Hy|]. apply IH in Hzs. now rewrite Hzs.
Qed.

Lemma traverse_app f l1 l2 :
  traverse f (l1 ++ l2)
  = do ys1 <- traverse f l1; do ys2 <- traverse f l2; Return (ys1 ++ ys2).
Proof.
  induction l1 as [|x l1 IH]; simpl.
  - now rewrite bind_ret.
  - rewrite IH, !bind_assoc. apply bind_ext. intros y.
    rewrite !bind_assoc. apply bind_ext. intros ys1.
    simpl. rewrite bind_assoc. reflexivity.
Qed.

Lemma traverse_ext f g l :
  (forall x, x ∈ l -> f x = g x) -> traverse f l = traverse g l.
Proof.
  induction l as [|x l IH]; intros H; simpl; [reflexivity|].
  rewrite (H x) by left. rewrite IH; [reflexivity|].
  intros y Hy. apply H. now right.
Qed.

Lemma traverse_total f l :
  Forall (fun x => exists y, f x = Return y) l -> exists ys, traverse f l = Return ys.
Proof.
  induction 1 as [|x l [y Hy] _ [ys Hys]]; simpl.
  - eauto.
  - rewrite Hy, Hys. simpl. eauto.
Qed.
End TraverseFacts.

Lemma iterate_pushes {A R} (f : A -> list R -> result (list R)) g l s :
  pushes f g ->
  iterate f l s = do rss <- traverse g l; Return (s ++ concat rss).
Proof.
  intros Hf. revert s. induction l as [|x l IH]; intros s; simpl.
  - now rewrite app_nil_r.
  - rewrite Hf, !bind_assoc. apply bind_ext. intros rs. simpl.
    rewrite IH, bind_assoc. apply bind_ext. intros rss. simpl.
    now rewrite app_assoc.
Qed.

(** The rows of nested loops follow the nesting of the contexts. *)
Lemma traverse_concat {A C R} (g : A -> result (list R)) (cx : A -> list C)
    (P : C -> R -> Prop) l rss :
  (forall x rs, x ∈ l -> g x = Return rs -> Forall2 P (cx x) rs) ->
  traverse g l = Return rss ->
  Forall2 P (concat (cx <$> l)) (concat rss).
Proof.
  intros Hg H. apply traverse_Return in H.
  induction H as [|x rs l rss Hx _ IH]; simpl; [constructor|].
  apply Forall2_app.
  - apply Hg; [left | exact Hx].
  - apply IH. intros y ys Hy. apply Hg. now right.
Qed.

(** ** The loops push what the accumulator-free traversal computes *)

Lemma forEach_pushes {R} (f : JSON -> list R -> result (list R)) g a s :
  pushes f g -> forEach a f s = do rs <- gather g a; Return (s ++ rs).
Proof.
  intros Hf. destruct a as [[| | | |l|]|]; try reflexivity.
  simpl. rewrite (iterate_pushes f g) by exact Hf.
  now rewrite bind_assoc.
Qed.

Lemma forEachOpt_pushes {R} (f : JSON -> list R -> result (list R)) g a s :
  pushes f g -> forEachOpt a f s = do rs <- gatherOpt g a; Return (s ++ rs).
Proof.
  intros Hf. destruct a as [j|]; [|simpl; now rewrite app_nil_r].
  destruct j; try apply (forEach_pushes f g _ s Hf).
  simpl. now rewrite app_nil_r.
Qed.

Lemma processWorkflow_pushes : pushes processWorkflow workflowRows.
Proof.
  intros wf s. unfold processWorkflow, workflowRows.
  rewrite !bind_assoc. apply bind_ext. intros parameterRequests.
  assert (Hjob : pushes
            (fun p csvRows =>
               do label <- get p "label";
               do row <- makeRow (Some (JStr "Create Job Form")) label p;
               Return (push csvRows row)) jobFormRow).
  { intros p rows. unfold jobFormRow. rewrite !bind_assoc.
    apply bind_ext. intros label. rewrite !bind_assoc. reflexivity. }
  assert (Hstage : pushes
            (fun stage csvRows =>
               do taskRequests <- get stage "taskRequests";
               forEachOpt taskRequests
                 (fun task csvRows =>
                    do parameterRequests <- get task "parameterRequests";
                    forEachOpt parameterRequests
                      (fun param csvRows =>
                         do stageName <- get stage "name";
                         do taskName <- get task "name";
                         do row <- makeRow stageName taskName param;
                         Return (push csvRows row))
                      csvRows)
                 csvRows) stageRows).
  { intros stage rows. unfold stageRows. rewrite bind_assoc.
    apply bind_ext. intros taskRequests.
    apply forEachOpt_pushes. intros task rows'. unfold taskRows.
    rewrite bind_assoc. apply bind_ext. intros prs.
    apply forEachOpt_pushes. intros param rows''. unfold parameterRow.
    rewrite !bind_assoc. apply bind_ext. intros stageName.
    rewrite !bind_assoc. apply bind_ext. intros taskName.
    rewrite !bind_assoc. reflexivity. }
  destruct (hasLength parameterRequests).
  - rewrite (forEach_pushes _ _ _ _ Hjob), !bind_assoc.
    apply bind_ext. intros jobForm. simpl.
    rewrite bind_assoc. apply bind_ext. intros stageRequests.
    rewrite (forEachOpt_pushes _ _ _ _ Hstage), !bind_assoc.
    apply bind_ext. intros staged. simpl. now rewrite app_assoc.
  - simpl. rewrite bind_assoc. apply bind_ext. intros stageRequests.
    rewrite (forEachOpt_pushes _ _ _ _ Hstage), !bind_assoc.
    apply bind_ext. intros staged. reflexivity.
Qed.

Lemma csvRows_workflowRows wfs :
  csvRows wfs = do rss <- traverse workflowRows wfs; Return (concat rss).
Proof. unfold csvRows. now rewrite (iterate_pushes _ _ _ _ processWorkflow_pushes). Qed.

(** ** The rows follow the contexts *)

Lemma get_field o k v : get o k = Return v -> v = field o k.
Proof. destruct o; simpl; intros [= <-]; reflexivity. Qed.

Lemma concat_singletons {A C} (h : A -> C) (l : list A) :
  concat ((fun x => [h x]) <$> l) = h <$> l.
Proof. induction l as [|x l IH]; csimpl; [reflexivity | now rewrite IH]. Qed.

Lemma gather_contexts {C R} (g : JSON -> result (list R)) (cx : JSON -> list C)
    (P : C -> R -> Prop) a rs :
  (forall x rs, g x = Return rs -> Forall2 P (cx x) rs) ->
  gather g a = Return rs ->
  Forall2 P (concat (cx <$> entriesOf a)) rs.
Proof.
  intros Hg H. destruct a as [[| | | |l|]|]; try discriminate H.
  simpl in H. unbind. subst rs.
  eapply traverse_concat; [|eassumption]. eauto.
Qed.

Lemma gatherOpt_contexts {C R} (g : JSON -> result (list R)) (cx : JSON -> list C)
    (P : C -> R -> Prop) a rs :
  (forall x rs, g x = Return rs -> Forall2 P (cx x) rs) ->
  gatherOpt g a = Return rs ->
  Forall2 P (concat (cx <$> entriesOf a)) rs.
Proof.
  intros Hg H. destruct a as [j|]; [destruct j|];
    try apply (gather_contexts g cx P _ rs Hg H);
    injection H as <-; constructor.
Qed.

Lemma jobFormRow_context p rs :
  jobFormRow p = Return rs ->
  Forall2 (fun c r => rowOf c = Return r)
    [(Some (JStr "Create Job Form"), field p "label", p)] rs.
Proof.
  unfold jobFormRow. intros H. unbind. subst rs.
  match goal with Hg : get p "label" = _ |- _ => apply get_field in Hg; subst end.
  repeat constructor. assumption.
Qed.

Lemma parameterRow_context stage task p rs :
  parameterRow stage task p = Return rs ->
  Forall2 (fun c r => rowOf c = Return r)
    [(field stage "name", field task "name", p)] rs.
Proof.
  unfold parameterRow. intros H. unbind. subst rs.
  repeat match goal with Hg : get _ _ = _ |- _ => apply get_field in Hg; subst end.
  repeat constructor. assumption.
Qed.

Lemma stageRows_contexts stage rs :
  stageRows stage = Return rs ->
  Forall2 (fun c r => rowOf c = Return r) (stageContexts stage) rs.
Proof.
  unfold stageRows, stageContexts. intros H. unbind.
  match goal with Hg : get stage _ = _ |- _ => apply get_field in Hg; subst end.
  eapply gatherOpt_contexts; [|eassumption].
  clear. intros task rs H. unfold taskRows in H. unbind.
  match goal with Hg : get task _ = _ |- _ => apply get_field in Hg; subst end.
  unfold taskContexts. rewrite <- concat_singletons.
  eapply gatherOpt_contexts; [|eassumption].
  intros p rs'. apply parameterRow_context.
Qed.

Lemma workflowRows_contexts wf rows :
  workflowRows wf = Return rows ->
  Forall2 (fun c r => rowOf c = Return r) (contexts wf) rows.
Proof.
  unfold workflowRows, contexts. intros H. unbind. subst rows.
  repeat match goal with Hg : get wf _ = _ |- _ => apply get_field in Hg; subst end.
  apply Forall2_app.
  - unfold jobFormContexts. rewrite <- concat_singletons.
    destruct (hasLength (field wf "parameterRequests")) eqn:Hlen.
    + eapply gather_contexts; [|eassumption]. apply jobFormRow_context.
    + match goal with Hr : Return _ = Return _ |- _ => injection Hr as <- end.
      destruct (field wf "parameterRequests") as [[| | | |l|]|]; simpl; try constructor.
      destruct l; [constructor | discriminate Hlen].
  - eapply gatherOpt_contexts; [|eassumption]. apply stageRows_contexts.
Qed.

Lemma length_concat_fmap {A C} (cx : A -> list C) (n : A -> nat) (l : list A) :
  (forall x, length (cx x) = n x) ->
  length (concat (cx <$> l)) = sum_list (n <$> l).
Proof.
  intros H. induction l as [|x l IH]; csimpl; [reflexivity|].
  now rewrite length_app, IH, H.
Qed.

Lemma contexts_length wf : length (contexts wf) = parameterCount wf.
Proof.
  unfold contexts, parameterCount, jobFormContexts.
  rewrite length_app, length_fmap. f_equal.
  apply length_concat_fmap. intros stage.
  apply length_concat_fmap. intros task.
  unfold taskContexts, taskParameters. now rewrite length_fmap.
Qed.

(** ** What a returned row holds *)

Lemma makeRow_Return stage task p r :
  makeRow stage task p = Return r ->
  exists labelText opts d rl,
    textOf (field p "label") = Return labelText
    /\ options p = Return opts
    /\ desc (fieldLogic labelText) p opts = Return d
    /\ rules p = Return rl
    /\ r = {|
         Stage_Name := stage;
         Activity_Name := task;
         Performer := "Performer/Verifier";
         Activity_Description_in_detail := d;
         Validations_Conditions := rl;
         Instruction_Title := field p "label";
         Field_Type := if truthy (field p "mandatory") then "Mandatory" else "Optional";
         Activity_Parameter_Type := field p "type";
         Configuration_Feasibility := "Configurable";
         Configuration_Feasibility_Notes := "N/A";
         Configuration_Status := "Configured";
         Verification_Status :=
           if strictEq (field p "verificationType") "SELF"
              || strictEq (field p "verificationType") "BOTH"
           then "Enabled" else "Disabled";
         Tester_Comments := "N/A";
         Verification_B_Status :=
           if strictEq (field p "verificationType") "BOTH" then "Enabled" else "Disabled";
         Tester_Comments_B := "N/A"
       |}.
Proof.
  unfold makeRow. intros H. unbind.
  repeat match goal with Hg : get p _ = _ |- _ => apply get_field in Hg end.
  subst. eauto 10.
Qed.

Lemma desc_Return fl p opts d :
  desc fl p opts = Return d ->
  exists key, textOf (field p "type") = Return key
              /\ d = memberText (lookupMember fl key) +:+ optionsSuffix opts.
Proof.
  unfold desc. intros H. unbind.
  match goal with Hg : get p _ = _ |- _ => apply get_field in Hg; subst end.
  eauto.
Qed.

(** ** Documents of the expected shape raise nothing *)

Lemma textOf_scalar v : scalar v = true -> exists s, textOf v = Return s.
Proof. destruct v as [[]|]; simpl; try discriminate; eauto. Qed.

Lemma elementText_scalar v : scalar v = true -> exists s, elementText v = Return s.
Proof. destruct v as [[]|]; simpl; try discriminate; eauto. Qed.

Lemma join_scalars l sep :
  Forall (fun v => scalar v = true) l -> exists s, join l sep = Return s.
Proof.
  intros H. unfold join.
  destruct (traverse_total elementText l) as [parts Hparts].
  - eapply Forall_impl; [exact H|]. apply elementText_scalar.
  - rewrite Hparts. simpl. eauto.
Qed.

Lemma names_shaped l :
  forallb shapedOption l = true ->
  exists ns, names l = Return ns /\ Forall (fun v => scalar v = true) ns.
Proof.
  unfold names. induction l as [|d l IH]; simpl.
  - eauto.
  - intros [Hd Hl]%andb_prop. destruct (IH Hl) as (ns & Hns & Hsc).
    destruct d; try discriminate Hd. simpl. rewrite Hns. simpl.
    eexists. split; [reflexivity|]. constructor; assumption.
Qed.

Lemma joined_names_shaped l sep :
  forallb shapedOption l = true ->
  exists s, (do ns <- names l; join ns sep) = Return s.
Proof.
  intros (ns & Hns & Hsc)%names_shaped. rewrite Hns. simpl.
  now apply join_scalars.
Qed.

Lemma options_shaped fs :
  shapedData (fs !! "data") = true -> exists s, options (JObj fs) = Return s.
Proof.
  unfold options, shapedData. simpl.
  destruct (fs !! "data") as [[| | | |l|gs]|]; simpl; eauto using joined_names_shaped.
  destruct (gs !! "choices") as [[| | | |l|]|]; eauto using joined_names_shaped.
Qed.

Lemma desc_shaped fl fs opts :
  scalar (fs !! "type") = true -> exists d, desc fl (JObj fs) opts = Return d.
Proof.
  intros (key & Hkey)%textOf_scalar. unfold desc. simpl. rewrite Hkey. simpl. eauto.
Qed.

Lemma joinOpt_scalars v sep :
  sequenceOf (fun x => scalar (Some x)) v = true -> exists o, joinOpt v sep = Return o.
Proof.
  destruct v as [[| | | |l|]|]; simpl; try discriminate; eauto.
  intros H. destruct (join_scalars (Some <$> l) sep) as [s Hs].
  - apply Forall_fmap, Forall_forall. intros x Hx.
    simpl. apply (proj1 (forallb_forall _ l) H). now apply list_elem_of_In.
  - rewrite Hs. simpl. eauto.
Qed.

Lemma ruleText_shaped fs r :
  scalar (fs !! "label") = true -> shapedRule r = true ->
  exists s, ruleText (JObj fs) r = Return s.
Proof.
  intros (label & Hlabel)%textOf_scalar Hr.
  destruct r as [| | | | |rs]; try discriminate Hr.
  simpl in Hr. apply andb_prop in Hr as [Hin Hshow].
  destruct (joinOpt_scalars _ ", " Hin) as [i Hi].
  destruct (joinOpt_scalars _ ", " Hshow) as [p Hp].
  unfold ruleText. simpl. rewrite Hlabel. simpl. rewrite Hi. simpl.
  rewrite Hp. simpl. eauto.
Qed.

Lemma rules_shaped fs :
  scalar (fs !! "label") = true ->
  sequenceOf shapedRule (if truthy (fs !! "rules") then fs !! "rules" else None) = true ->
  exists s, rules (JObj fs) = Return s.
Proof.
  intros Hlabel H. unfold rules. simpl.
  destruct (truthy (fs !! "rules")) eqn:Ht.
  - destruct (fs !! "rules") as [[| | | |l|]|]; try discriminate.
    simpl in H. destruct (traverse_total (ruleText (JObj fs)) l) as [ts Hts].
    + apply Forall_forall. intros r Hr. apply ruleText_shaped; [assumption|].
      apply (proj1 (forallb_forall _ l) H). now apply list_elem_of_In.
    + rewrite Hts. simpl. eauto.
  - simpl. eauto.
Qed.

Lemma makeRow_shaped stage task p :
  shapedParameter p = true -> exists r, makeRow stage task p = Return r.
Proof.
  destruct p as [| | | | |fs]; try discriminate. simpl.
  intros [[[Hlabel Htype]%andb_prop Hdata]%andb_prop Hrules]%andb_prop.
  destruct (textOf_scalar _ Hlabel) as [labelText HlabelText].
  destruct (options_shaped _ Hdata) as [opts Hopts].
  destruct (desc_shaped (fieldLogic labelText) _ opts Htype) as [d Hd].
  destruct (rules_shaped _ Hlabel Hrules) as [rl Hrl].
  unfold makeRow. simpl get at 1. simpl bind at 1.
  rewrite HlabelText. simpl bind at 1. rewrite Hopts. simpl bind at 1.
  rewrite Hd. simpl bind at 1. rewrite Hrl. simpl. eauto.
Qed.

Lemma gather_shaped {R} (g : JSON -> result (list R)) (shaped : JSON -> bool) l :
  (forall x, shaped x = true -> exists rs, g x = Return rs) ->
  forallb shaped l = true ->
  exists rs, gather g (Some (JArr l)) = Return rs.
Proof.
  intros Hg H. simpl. destruct (traverse_total g l) as [rss Hrss].
  - apply Forall_forall. intros x Hx. apply Hg.
    apply (proj1 (forallb_forall _ l) H). now apply list_elem_of_In.
  - rewrite Hrss. simpl. eauto.
Qed.

Lemma gatherOpt_shaped {R} (g : JSON -> result (list R)) (shaped : JSON -> bool) a :
  (forall x, shaped x = true -> exists rs, g x = Return rs) ->
  sequenceOf shaped a = true ->
  exists rs, gatherOpt g a = Return rs.
Proof.
  intros Hg H. destruct a as [[| | | |l|]|]; try discriminate H; simpl; eauto.
  now apply (gather_shaped g shaped).
Qed.

Lemma taskRows_shaped stage task :
  match stage with JNull => False | _ => True end ->
  shapedTask task = true -> exists rs, taskRows stage task = Return rs.
Proof.
  intros Hstage. destruct task as [| | | | |fs]; try discriminate. simpl.
  intros H. unfold taskRows. simpl.
  apply (gatherOpt_shaped _ shapedParameter); [|exact H].
  intros p Hp. unfold parameterRow.
  destruct (makeRow_shaped (fs !! "name") (fs !! "name") p Hp) as [r0 _].
  destruct stage; try contradiction; simpl;
    match goal with |- context [makeRow ?s ?t p] =>
      destruct (makeRow_shaped s t p Hp) as [r Hr]; rewrite Hr; simpl; eauto
    end.
Qed.

Lemma stageRows_shaped stage :
  shapedStage stage = true -> exists rs, stageRows stage = Return rs.
Proof.
  destruct stage as [| | | | |fs]; try discriminate. simpl.
  intros H. unfold stageRows. simpl.
  apply (gatherOpt_shaped _ shapedTask); [|exact H].
  intros task. now apply taskRows_shaped.
Qed.

Lemma jobFormRow_shaped p :
  shapedParameter p = true -> exists rs, jobFormRow p = Return rs.
Proof.
  intros Hp. unfold jobFormRow. destruct p as [| | | | |fs]; try discriminate.
  simpl. destruct (makeRow_shaped (Some (JStr "Create Job Form")) (fs !! "label") _ Hp)
    as [r Hr].
  rewrite Hr. simpl. eauto.
Qed.

Lemma workflowRows_shaped wf :
  shapedWorkflow wf = true -> exists rows, workflowRows wf = Return rows.
Proof.
  destruct wf as [| | | | |fs]; try discriminate. simpl.
  intros [Hjob Hstages]%andb_prop. unfold workflowRows. simpl.
  assert (exists jobForm,
            (if hasLength (fs !! "parameterRequests")
             then gather jobFormRow (fs !! "parameterRequests") else Return [])
            = Return jobForm) as [jobForm ->].
  { destruct (hasLength (fs !! "parameterRequests")) eqn:Hlen; [|eauto].
    destruct (fs !! "parameterRequests") as [[| | | |l|]|]; try discriminate.
    now apply (gather_shaped _ shapedParameter); [apply jobFormRow_shaped|]. }
  simpl.
  destruct (gatherOpt_shaped stageRows shapedStage _ stageRows_shaped Hstages)
    as [staged ->].
  simpl. eauto.
Qed.


Lemma csvRows_contexts wfs rows :
  csvRows wfs = Return rows ->
  Forall2 (fun c r => rowOf c = Return r) (concat (contexts <$> wfs)) rows.
Proof.
  rewrite csvRows_workflowRows. intros H. unbind. subst rows.
  eapply traverse_concat; [|eassumption].
  intros wf rs _. apply workflowRows_contexts.
Qed.

Lemma prefix_append (s t : string) : String.prefix s (s +:+ t) = true.
Proof.
  induction s as [|a s IH]; [destruct t; reflexivity|].
  change (String.prefix (String a s) (String a (s +:+ t)) = true).
  simpl. destruct (Ascii.ascii_dec a a); [exact IH | contradiction].
Qed.

(** ** The template table *)

Lemma append_empty_r (s : string) : s +:+ "" = s.
Proof.
  induction s as [|a s IH]; [reflexivity|].
  change (String a (s +:+ "") = String a s). now rewrite IH.
Qed.

Lemma fieldLogic_template type label :
  type ∈ recognizedTypes ->
  exists text, template type label = Some text
               /\ lookupMember (fieldLogic label) type = Own text.
Proof.
  intros H. unfold recognizedTypes, templates in H. simpl in H.
  repeat (apply elem_of_cons in H as [->|H];
          [eexists; split; vm_compute; reflexivity|]).
  now apply elem_of_nil in H.
Qed.

Lemma fieldLogic_unknown key label :
  key ∉ recognizedTypes -> fieldLogic label !! key = None.
Proof.
  intros H. unfold fieldLogic.
  repeat (rewrite lookup_insert_ne;
          [|intros <-; apply H; unfold recognizedTypes; simpl;
            repeat first [left | right]]).
  apply lookup_empty.
Qed.

(** A literal key that is none of the nine. *)
Ltac not_recognized :=
  let H := fresh in
  unfold recognizedTypes, templates; simpl; intros H;
  repeat (apply elem_of_cons in H as [H|H]; [discriminate H|]);
  now apply elem_of_nil in H.

Lemma names_fields l ns :
  names l = Return ns -> ns = (fun d => field d "name") <$> l.
Proof.
  unfold names. intros H. apply traverse_Return in H.
  induction H as [|d v l ns Hd _ IH]; csimpl; [reflexivity|].
  apply get_field in Hd. now subst.
Qed.

Lemma append_empty (s t : string) : s +:+ t = "" -> s = "" /\ t = "".
Proof. destruct s; [auto | discriminate]. Qed.

Lemma concat_empty (sep : string) (ns : list string) :
  sep <> "" -> (String.concat sep ns = "" <-> ns = [] \/ ns = [""]).
Proof.
  intros Hsep. destruct ns as [|n [|m ns]]; simpl.
  - intuition.
  - split; [intros ->; auto | intros [|[= ->]]; [discriminate | reflexivity]].
  - split; [|intros [|]; discriminate].
    intros H. apply append_empty in H as [_ H].
    apply append_empty in H as [H _]. contradiction.
Qed.

(** The options text is the joined names of the options list. *)
Lemma options_optionNames p opts :
  options p = Return opts -> join (optionNames p) " • " = Return opts.
Proof.
  intros H. unfold options in H. unbind.
  match goal with Hg : get p _ = _ |- _ => apply get_field in Hg; subst end.
  unfold optionNames.
  destruct (field p "data") as [[| | | |l|gs]|]; simpl in *;
    try (injection H as <-; reflexivity).
  - unbind. match goal with Hn : names _ = _ |- _ => apply names_fields in Hn; subst end.
    assumption.
  - destruct (gs !! "choices") as [[| | | |l|]|];
      try (injection H as <-; reflexivity).
    unbind. match goal with Hn : names _ = _ |- _ => apply names_fields in Hn; subst end.
    assumption.
Qed.

(** A joined text is empty only for no entry, or for one entry whose text
    is empty: the separator shows as soon as there are two. *)
Lemma join_empty (l : list value) (sep opts : string) :
  sep <> "" ->
  join l sep = Return opts ->
  (opts = "" <-> l = [] \/ exists v, l = [v] /\ elementText v = Return "").
Proof.
  intros Hsep H. unfold join in H. unbind. subst opts.
  match goal with Ht : traverse _ _ = Return ?parts |- _ =>
    apply traverse_Return in Ht; rename Ht into Hparts end.
  rewrite (concat_empty sep) by exact Hsep. split.
  - intros [->| ->].
    + left. now inversion Hparts.
    + right. inversion Hparts as [|v ? l' ? Hv Hrest]; subst.
      inversion Hrest; subst. eauto.
  - intros [->|(v & -> & Hv)].
    + left. now inversion Hparts.
    + right. inversion Hparts as [|? s ? ? Hs Hrest]; subst.
      inversion Hrest; subst. congruence.
Qed.

(** The description of a row: the text found for the type, then the
    options suffix exactly when the options text is not empty. *)
Lemma description_cases stage task p r :
  makeRow stage task p = Return r ->
  exists label key opts,
    textOf (field p "label") = Return label
    /\ textOf (field p "type") = Return key
    /\ options p = Return opts
    /\ join (optionNames p) " • " = Return opts
    /\ let base := memberText (lookupMember (fieldLogic label) key) in
       (opts = "" /\ Activity_Description_in_detail r = base)
       \/ (opts <> ""
           /\ Activity_Description_in_detail r
              = base +:+ " Available Options: • " +:+ opts).
Proof.
  intros H.
  apply makeRow_Return in H as (label & opts & d & rl & Hl & Ho & Hd & _ & ->).
  apply desc_Return in Hd as (key & Hkey & ->).
  exists label, key, opts. repeat (split; [assumption|]).
  split; [now apply options_optionNames|]. simpl.
  unfold optionsSuffix. destruct (String.eqb_spec opts "") as [->|Hne].
  - left. split; [reflexivity | apply append_empty_r].
  - right. split; [assumption | reflexivity].
Qed.

(** * The claims *)

(** C1.  The rows [processWorkflow] adds to [csvRows] are as many as the
    workflow has parameters: those of its top-level [parameterRequests]
    plus, over every stage and every task, those of the task's
    [parameterRequests], an absent or empty array counting for none.
    A workflow of the expected shape does get its rows. *)
Theorem processWorkflow_row_count (wf : JSON) (rows0 : list Row) :
  (forall out, processWorkflow wf rows0 = Return out ->
               length out = length rows0 + parameterCount wf)
  /\ (shapedWorkflow wf = true -> exists out, processWorkflow wf rows0 = Return out).
Proof.
  rewrite processWorkflow_pushes. split.
  - intros out H. unbind. subst out.
    match goal with Hw : workflowRows wf = _ |- _ =>
      apply workflowRows_contexts, Forall2_length in Hw; rewrite length_app, <- Hw end.
    now rewrite contexts_length.
  - intros (rows & ->)%workflowRows_shaped. simpl. eauto.
Qed.

Lemma processWorkflow_row_count_witness :
  exists out, processWorkflow Samples.workflow [] = Return out /\ length out = 3.
Proof.
  destruct (processWorkflow_row_count Samples.workflow []) as [Hcount Hruns].
  destruct Hruns as [out Hout]; [vm_compute; reflexivity|].
  exists out. split; [exact Hout|]. apply (Hcount out Hout).
Defined.

(** C2.  The rows come in the order of the contexts: one row per top-level
    parameter, in order, with Stage Name "Create Job Form" and Activity
    Name the parameter's own label, then one row per parameter of each
    task of each stage, in order, with Stage Name the stage's name and
    Activity Name the task's name. *)
Theorem processWorkflow_row_order (wf : JSON) (rows0 : list Row) :
  (forall out, processWorkflow wf rows0 = Return out ->
     exists rows,
       out = rows0 ++ rows
       /\ Forall2 (fun c r => rowOf c = Return r
                              /\ Stage_Name r = c.1.1 /\ Activity_Name r = c.1.2)
            (contexts wf) rows)
  /\ (shapedWorkflow wf = true -> exists out, processWorkflow wf rows0 = Return out).
Proof.
  rewrite processWorkflow_pushes. split.
  - intros out H. unbind. subst out. eexists. split; [reflexivity|].
    match goal with Hw : workflowRows wf = _ |- _ =>
      apply workflowRows_contexts in Hw; eapply Forall2_impl; [exact Hw|] end.
    intros c r Hr. split; [exact Hr|].
    apply makeRow_Return in Hr as (? & ? & ? & ? & _ & _ & _ & _ & ->).
    split; reflexivity.
  - intros (rows & ->)%workflowRows_shaped. simpl. eauto.
Qed.

Lemma processWorkflow_row_order_witness :
  exists out,
    processWorkflow Samples.workflow [] = Return out
    /\ (Stage_Name <$> out)
       = [Some (JStr "Create Job Form"); Some (JStr "Review"); Some (JStr "Review")]
    /\ (Activity_Name <$> out)
       = [Some (JStr "Full Name"); Some (JStr "Approve"); Some (JStr "Approve")].
Proof.
  destruct (processWorkflow_row_order Samples.workflow []) as [Horder Hruns].
  destruct Hruns as [out Hout]; [vm_compute; reflexivity|].
  exists out. split; [exact Hout|].
  destruct (Horder out Hout) as (rows & -> & _).
  revert Hout. vm_compute. intros [= <-]. split; reflexivity.
Defined.

(** C3, as the code has it.  For a parameter whose type is one of the
    nine recognized values and that gets a row, the description is the
    template of that type with [{label}] replaced by the text of
    [param.label], followed by " Available Options: • " and the option
    names joined with " • " exactly when that joined text is not empty,
    that is unless the options list is empty or has a single entry whose
    name renders as the empty text; the "Priority" parameter is described
    as "Performer selects if Priority. Available Options: • Low • High". *)
Theorem description_of_recognized_type :
  (forall stage task p type r,
     field p "type" = Some (JStr type) ->
     type ∈ recognizedTypes ->
     makeRow stage task p = Return r ->
     exists label opts text,
       textOf (field p "label") = Return label
       /\ join (optionNames p) " • " = Return opts
       /\ template type label = Some text
       /\ ((opts = "" /\ Activity_Description_in_detail r = text)
           \/ (opts <> ""
               /\ Activity_Description_in_detail r
                  = text +:+ " Available Options: • " +:+ opts))
       /\ (opts = "" <->
           optionNames p = []
           \/ exists v, optionNames p = [v] /\ elementText v = Return ""))
  /\ (forall stage task,
        exists r,
          makeRow stage task Samples.priority = Return r
          /\ Activity_Description_in_detail r
             = "Performer selects if Priority. Available Options: • Low • High").
Proof.
  split.
  - intros stage task p type r Htype Hrec H.
    apply description_cases in H
      as (label & key & opts & Hl & Hkey & _ & Hnames & Hdesc).
    rewrite Htype in Hkey. injection Hkey as <-.
    destruct (fieldLogic_template type label Hrec) as (text & Ht & Hmember).
    rewrite Hmember in Hdesc. simpl in Hdesc.
    exists label, opts, text. repeat (split; [assumption|]).
    now apply (join_empty _ " • ").
  - intros stage task. eexists. split; [vm_compute; reflexivity | reflexivity].
Qed.

Lemma description_of_recognized_type_witness :
  exists r,
    makeRow None None Samples.priority = Return r
    /\ exists label opts text,
         textOf (field Samples.priority "label") = Return label
         /\ join (optionNames Samples.priority) " • " = Return opts
         /\ template "SINGLE_SELECT" label = Some text
         /\ Activity_Description_in_detail r
            = text +:+ " Available Options: • " +:+ opts.
Proof.
  eexists. split; [vm_compute; reflexivity|].
  match goal with |- exists label opts text, _ /\ _ /\ _ /\ Activity_Description_in_detail ?r = _ =>
    destruct (proj1 description_of_recognized_type None None Samples.priority
                "SINGLE_SELECT" r)
      as (label & opts & text & Hl & Ho & Ht & Hdesc & _);
      [vm_compute; reflexivity | left | vm_compute; reflexivity |]
  end.
  exists label, opts, text. repeat (split; [assumption|]).
  destruct Hdesc as [[Hempty _]|[_ Hdesc]]; [|exact Hdesc].
  subst opts. vm_compute in Ho. discriminate Ho.
Defined.

(** C3 as stated fails: a DATE parameter whose [data] holds one option
    without a name has an option, and its description is the template
    alone. *)
Lemma nameless_option_counterexample :
  field Samples.namelessOption "type" = Some (JStr "DATE")
  /\ ("DATE" ∈ recognizedTypes)
  /\ optionNames Samples.namelessOption = [None]
  /\ template "DATE" "Due" = Some "Performer enters the date for Due."
  /\ exists r,
       makeRow None None Samples.namelessOption = Return r
       /\ Activity_Description_in_detail r = "Performer enters the date for Due."
       /\ Activity_Description_in_detail r
          <> "Performer enters the date for Due. Available Options: • ".
Proof.
  split; [vm_compute; reflexivity|].
  split; [unfold recognizedTypes, templates; simpl; repeat first [left | right]|].
  split; [vm_compute; reflexivity|].
  split; [vm_compute; reflexivity|].
  eexists. split; [vm_compute; reflexivity|].
  split; [reflexivity | discriminate].
Qed.

(** C4, as the code has it.  The options text of a parameter is the
    [name] fields, in order and joined with " • ", of [data] when it is an
    array, else of [data.choices] when that is an array, else empty: any
    other shape of [data] gives the empty text and raises nothing.  The
    description of a parameter that gets a row is the text before the
    options followed by " Available Options: • " and the options text
    exactly when the options text, not the options list, is non-empty:
    that is unless the list is empty or has a single entry whose name
    renders as the empty text, so that two or more options always get the
    suffix. *)
Theorem options_text_and_suffix :
  (forall p opts, options p = Return opts -> join (optionNames p) " • " = Return opts)
  /\ (forall p,
        p <> JNull ->
        (forall l, field p "data" <> Some (JArr l)) ->
        (forall l, getOpt (field p "data") "choices" <> Some (JArr l)) ->
        options p = Return "" /\ optionNames p = [])
  /\ (forall stage task p r,
        makeRow stage task p = Return r ->
        exists label key opts,
          textOf (field p "label") = Return label
          /\ textOf (field p "type") = Return key
          /\ options p = Return opts
          /\ join (optionNames p) " • " = Return opts
          /\ (let base := memberText (lookupMember (fieldLogic label) key) in
              (opts = "" /\ Activity_Description_in_detail r = base)
              \/ (opts <> ""
                  /\ Activity_Description_in_detail r
                     = base +:+ " Available Options: • " +:+ opts))
          /\ (opts = "" <->
              optionNames p = []
              \/ exists v, optionNames p = [v] /\ elementText v = Return "")
          /\ (forall v w rest, optionNames p = v :: w :: rest -> opts <> "")).
Proof.
  split; [exact options_optionNames|]. split.
  - intros p Hp Hdata Hchoices. unfold options, optionNames.
    assert (get p "data" = Return (field p "data")) as ->
      by (destruct p; try reflexivity; contradiction).
    simpl. destruct (field p "data") as [[| | | |l|gs]|]; simpl in *; auto.
    + now destruct (Hdata l).
    + destruct (gs !! "choices") as [[| | | |l|]|]; auto.
      now destruct (Hchoices l).
  - intros stage task p r H.
    apply description_cases in H
      as (label & key & opts & Hl & Hkey & Ho & Hnames & Hdesc).
    exists label, key, opts. repeat (split; [assumption|]).
    pose proof (join_empty (optionNames p) " • " opts ltac:(discriminate) Hnames)
      as Hempty.
    split; [exact Hempty|].
    intros v w rest Hlist Hopts. apply Hempty in Hopts as [Hnil|(u & Hone & _)];
      rewrite Hlist in *; discriminate.
Qed.

Lemma options_text_and_suffix_witness :
  exists r,
    makeRow None None Samples.unknownType = Return r
    /\ options Samples.unknownType = Return "a"
    /\ join (optionNames Samples.unknownType) " • " = Return "a"
    /\ Activity_Description_in_detail r = "undefined Available Options: • a".
Proof.
  destruct options_text_and_suffix as (Hnames & _ & Hsuffix).
  eexists. split; [vm_compute; reflexivity|].
  split; [vm_compute; reflexivity|].
  split; [apply Hnames; vm_compute; reflexivity|].
  match goal with |- Activity_Description_in_detail ?r = _ =>
    destruct (Hsuffix None None Samples.unknownType r)
      as (label & key & opts & Hlabel & Hkey & Hopts & _);
      [vm_compute; reflexivity|]
  end.
  reflexivity.
Defined.

(** C4 as stated fails: a parameter whose [data] holds one option with an
    empty name has a non-empty options list, and its description has no
    options suffix. *)
Lemma options_suffix_counterexample :
  optionNames Samples.blankOption = [Some (JStr "")]
  /\ optionNames Samples.blankOption <> []
  /\ exists r,
       makeRow None None Samples.blankOption = Return r
       /\ Activity_Description_in_detail r = "Performer selects if P."
       /\ Activity_Description_in_detail r
          <> "Performer selects if P. Available Options: • ".
Proof.
  split; [vm_compute; reflexivity|].
  split; [vm_compute; discriminate|].
  eexists. split; [vm_compute; reflexivity|].
  split; [reflexivity | discriminate].
Qed.

(** C5 fails on the code by a slip: the optional chains of line 94 keep a
    rule without [input] or [show.parameters] from raising, but the
    template literal then prints [undefined] inside the brackets, where
    the claim has an empty list. *)
Theorem missing_rule_fields_print_undefined :
  rules Samples.bareRule
  = Return "Visible if [Status] is [undefined]. Shows parameters: [undefined]"
  /\ rules Samples.bareRule
     <> Return "Visible if [Status] is []. Shows parameters: []"
  /\ forall stage task,
       exists r,
         makeRow stage task Samples.bareRule = Return r
         /\ Validations_Conditions r
            = "Visible if [Status] is [undefined]. Shows parameters: [undefined]".
Proof.
  split; [vm_compute; reflexivity|].
  split; [vm_compute; discriminate|].
  intros stage task. eexists. split; [vm_compute; reflexivity | reflexivity].
Qed.

(** The part of C5 the code does honour: rules whose [input] and
    [show.parameters] are present are rendered with the owning
    parameter's label and joined with "; ". *)
Example rules_rendering :
  rules Samples.status
  = Return "Visible if [Status] is [Yes]. Shows parameters: [Comment]".
Proof. vm_compute. reflexivity. Qed.

(** C6.  Verification Status is "Enabled" when [verificationType] is
    "SELF" or "BOTH" and "Disabled" otherwise; Verification B Status is
    "Enabled" when it is "BOTH" and "Disabled" otherwise, an absent
    [verificationType] included. *)
Theorem verification_mapping (stage task : value) (p : JSON) (r : Row) :
  makeRow stage task p = Return r ->
  let vt := field p "verificationType" in
  (vt = Some (JStr "SELF") \/ vt = Some (JStr "BOTH") -> Verification_Status r = "Enabled")
  /\ (~ (vt = Some (JStr "SELF") \/ vt = Some (JStr "BOTH")) ->
      Verification_Status r = "Disabled")
  /\ (vt = Some (JStr "BOTH") -> Verification_B_Status r = "Enabled")
  /\ (vt <> Some (JStr "BOTH") -> Verification_B_Status r = "Disabled").
Proof.
  intros H vt.
  apply makeRow_Return in H as (? & ? & ? & ? & _ & _ & _ & _ & ->). simpl.
  fold vt.
  assert (Heq : forall s, strictEq vt s = true <-> vt = Some (JStr s)).
  { intros s. destruct vt as [[]|]; simpl; split; try discriminate.
    - now intros ->%String.eqb_eq.
    - intros [= ->]. apply String.eqb_refl. }
  repeat split.
  - intros [Hs|Hb]; apply Heq in Hs || apply Heq in Hb.
    + now rewrite Hs.
    + rewrite Hb. now rewrite orb_true_r.
  - intros Hn.
    destruct (strictEq vt "SELF") eqn:Hs; [destruct Hn; left; now apply Heq|].
    destruct (strictEq vt "BOTH") eqn:Hb; [destruct Hn; right; now apply Heq|].
    reflexivity.
  - intros Hb%Heq. now rewrite Hb.
  - intros Hn. destruct (strictEq vt "BOTH") eqn:Hb; [|reflexivity].
    destruct Hn. now apply Heq.
Qed.

Lemma verification_mapping_witness :
  exists r,
    makeRow None None Samples.fullName = Return r
    /\ Verification_Status r = "Enabled" /\ Verification_B_Status r = "Enabled".
Proof.
  eexists. split; [vm_compute; reflexivity|].
  match goal with |- Verification_Status ?r = _ /\ _ =>
    destruct (verification_mapping None None Samples.fullName r)
      as (Hself & _ & Hboth & _); [vm_compute; reflexivity|]
  end.
  split; [apply Hself; right | apply Hboth]; vm_compute; reflexivity.
Defined.

(** C7.  A parameter without a [rules] key and the same parameter with
    [rules: []] get the same row, and the Validations / Conditions field
    of that row is the empty string. *)
Theorem empty_rules_idempotence (fs : gmap string JSON) (stage task : value) :
  fs !! "rules" = None ->
  rules (JObj fs) = Return ""
  /\ rules (JObj (<["rules" := JArr []]> fs)) = Return ""
  /\ makeRow stage task (JObj (<["rules" := JArr []]> fs)) = makeRow stage task (JObj fs)
  /\ forall r, makeRow stage task (JObj fs) = Return r -> Validations_Conditions r = "".
Proof.
  intros Hno.
  assert (Habsent : rules (JObj fs) = Return "").
  { unfold rules. simpl. now rewrite Hno. }
  assert (Hempty : rules (JObj (<["rules" := JArr []]> fs)) = Return "").
  { unfold rules. simpl. now rewrite lookup_insert_eq. }
  repeat split; try assumption.
  - unfold makeRow. rewrite Habsent, Hempty. unfold options, desc. simpl.
    now rewrite !lookup_insert_ne by discriminate.
  - intros r H.
    apply makeRow_Return in H as (? & ? & ? & rl & _ & _ & _ & Hrl & ->).
    rewrite Habsent in Hrl. now injection Hrl as <-.
Qed.

Lemma empty_rules_idempotence_witness :
  exists r,
    makeRow None None (JObj Samples.due) = Return r
    /\ makeRow None None (JObj (<["rules" := JArr []]> Samples.due)) = Return r
    /\ Validations_Conditions r = "".
Proof.
  destruct (empty_rules_idempotence Samples.due None None) as (_ & _ & Hsame & Hblank);
    [vm_compute; reflexivity|].
  eexists. split; [vm_compute; reflexivity|].
  split; [rewrite Hsame; vm_compute; reflexivity | reflexivity].
Defined.




(** C9.  Processing is a homomorphism for concatenation: the rows of the
    workflows [A ++ B] are the rows of [A] followed by the rows of [B]
    (and an exception of either is an exception of the whole); the same
    holds document by document for the documents of an archive. *)
Theorem csvRows_concatenation :
  (forall A B : list JSON,
     csvRows (A ++ B) = do rowsA <- csvRows A; do rowsB <- csvRows B; Return (rowsA ++ rowsB))
  /\ (forall A B : JSON,
        csvRows (jsonObjects [A; B])
        = do rowsA <- csvRows (jsonObjects [A]);
          do rowsB <- csvRows (jsonObjects [B]);
          Return (rowsA ++ rowsB)).
Proof.
  assert (H : forall A B : list JSON,
             csvRows (A ++ B)
             = do rowsA <- csvRows A; do rowsB <- csvRows B; Return (rowsA ++ rowsB)).
  { intros A B. rewrite !csvRows_workflowRows, traverse_app, !bind_assoc.
    apply bind_ext. intros rssA. simpl. rewrite !bind_assoc.
    apply bind_ext. intros rssB. simpl. now rewrite concat_app. }
  split; [exact H|].
  intros A B. unfold jsonObjects. simpl. rewrite !app_nil_r. apply H.
Qed.

(** C10, as the code has it.  When the type of a parameter, taken as a
    property key, is neither one of the nine template keys nor the name
    of a property inherited from [Object.prototype], the description is
    "undefined" followed by the options suffix, and exactly "undefined"
    when the options text is empty. *)
Theorem description_of_unknown_type (stage task : value) (p : JSON) (key : string) (r : Row) :
  textOf (field p "type") = Return key ->
  key ∉ recognizedTypes ->
  objectPrototype !! key = None ->
  makeRow stage task p = Return r ->
  exists opts,
    options p = Return opts
    /\ Activity_Description_in_detail r = "undefined" +:+ optionsSuffix opts
    /\ String.prefix "undefined" (Activity_Description_in_detail r) = true
    /\ (opts = "" -> Activity_Description_in_detail r = "undefined").
Proof.
  intros Hkey Hunknown Hproto H.
  apply makeRow_Return in H as (label & opts & d & rl & _ & Ho & Hd & _ & ->).
  apply desc_Return in Hd as (key' & Hkey' & ->).
  rewrite Hkey in Hkey'. injection Hkey' as <-.
  unfold lookupMember. rewrite (fieldLogic_unknown key label Hunknown), Hproto.
  exists opts. cbn [memberText Activity_Description_in_detail].
  split; [exact Ho|]. split; [reflexivity|]. split; [apply prefix_append|].
  intros ->. reflexivity.
Qed.

Lemma description_of_unknown_type_witness :
  exists r,
    makeRow None None Samples.unknownType = Return r
    /\ Activity_Description_in_detail r = "undefined Available Options: • a".
Proof.
  eexists. split; [vm_compute; reflexivity|].
  match goal with |- Activity_Description_in_detail ?r = _ =>
    destruct (description_of_unknown_type None None Samples.unknownType "NUMBER" r)
      as (opts & Hopts & Hdesc & _)
  end.
  - vm_compute. reflexivity.
  - not_recognized.
  - vm_compute. reflexivity.
  - vm_compute. reflexivity.
  - reflexivity.
Defined.

(** C10 as stated fails: "constructor" is not one of the nine template
    keys, yet the lookup finds the function every object literal
    inherits, and the description starts with its source text. *)
Lemma inherited_type_counterexample :
  field Samples.inheritedType "type" = Some (JStr "constructor")
  /\ ("constructor" ∉ recognizedTypes)
  /\ options Samples.inheritedType = Return ""
  /\ exists r,
       makeRow None None Samples.inheritedType = Return r
       /\ Activity_Description_in_detail r = "function Object() { [native code] }"
       /\ String.prefix "undefined" (Activity_Description_in_detail r) = false
       /\ Activity_Description_in_detail r <> "undefined".
Proof.
  split; [vm_compute; reflexivity|].
  split; [not_recognized|].
  split; [vm_compute; reflexivity|].
  eexists. split; [vm_compute; reflexivity|].
  split; [reflexivity|]. split; [reflexivity | discriminate].
Qed.


(** * Further properties of the code *)

(** ** Exceptions *)

Lemma Throw_TypeError {A} (e : exn) : @Throw A e = Throw TypeError.
Proof. now destruct e. Qed.

Lemma result_cases {A} (m : result A) : (exists a, m = Return a) \/ m = Throw TypeError.
Proof. destruct m as [a|[]]; eauto. Qed.

Lemma traverse_Throw {A B} (f : A -> result B) (l : list A) :
  traverse f l = Throw TypeError <-> exists x, x ∈ l /\ f x = Throw TypeError.
Proof.
  induction l as [|x l IH]; simpl.
  - split; [discriminate|]. intros (x & Hx & _). now apply elem_of_nil in Hx.
  - destruct (f x) as [y|[]] eqn:Hfx; simpl.
    + destruct (traverse f l) as [ys|[]] eqn:Hl; simpl.
      * split; [discriminate|].
        intros (z & [->|Hz]%elem_of_cons & Hfz); [congruence|].
        assert (H : Return ys = Throw TypeError) by (apply IH; eauto).
        discriminate H.
      * split; [|reflexivity]. intros _.
        destruct (proj1 IH eq_refl) as (z & Hz & Hfz).
        exists z. split; [now right | exact Hfz].
    + split; [|reflexivity]. intros _. exists x. split; [left | exact Hfx].
Qed.

Lemma elem_of_concat_fmap {A C} (f : A -> list C) (l : list A) (x : A) (c : C) :
  x ∈ l -> c ∈ f x -> c ∈ concat (f <$> l).
Proof.
  intros Hx Hc. induction l as [|y l IH]; [now apply elem_of_nil in Hx|].
  csimpl. apply elem_of_app. apply elem_of_cons in Hx as [->|Hx]; auto.
Qed.

Lemma processWorkflow_nil wf : processWorkflow wf [] = workflowRows wf.
Proof. rewrite processWorkflow_pushes. now destruct (workflowRows wf). Qed.

(** X1.  [processWorkflow] only appends: it returns the rows it was given
    followed by the rows it computes from the workflow alone, and it
    throws exactly when it throws on an empty array. *)
Theorem processWorkflow_appends (wf : JSON) (rows0 : list Row) :
  processWorkflow wf rows0 = do added <- processWorkflow wf []; Return (rows0 ++ added).
Proof. rewrite processWorkflow_nil. apply processWorkflow_pushes. Qed.

(** X2.  The conversion of an upload is all or nothing: it returns
    exactly when every workflow returns on its own, and then the rows are
    the rows of the workflows one after the other; it throws exactly when
    one of the workflows throws. *)
Theorem csvRows_all_or_nothing (wfs : list JSON) :
  (forall out,
      csvRows wfs = Return out <->
      exists rss, Forall2 (fun wf rs => processWorkflow wf [] = Return rs) wfs rss
                  /\ out = concat rss)
  /\ (csvRows wfs = Throw TypeError <->
      exists wf, wf ∈ wfs /\ processWorkflow wf [] = Throw TypeError).
Proof.
  rewrite csvRows_workflowRows. split.
  - intros out. rewrite bind_Return. split.
    + intros (rss & Hrss & [= <-]). exists rss. split; [|reflexivity].
      apply traverse_Return in Hrss.
      eapply Forall2_impl; [exact Hrss|]. intros wf rs H.
      cbv beta. rewrite processWorkflow_nil. exact H.
    + intros (rss & Hrss & ->). exists rss. split; [|reflexivity].
      apply traverse_Return.
      eapply Forall2_impl; [exact Hrss|]. intros wf rs H.
      cbv beta in H. rewrite processWorkflow_nil in H. exact H.
  - destruct (traverse workflowRows wfs) as [rss|[]] eqn:Ht; simpl.
    + split; [discriminate|]. intros (wf & Hwf & Hthrow).
      rewrite processWorkflow_nil in Hthrow.
      assert (H : traverse workflowRows wfs = Throw TypeError)
        by (apply traverse_Throw; eauto).
      congruence.
    + split; [|reflexivity]. intros _.
      apply traverse_Throw in Ht as (wf & Hwf & Hthrow).
      exists wf. now rewrite processWorkflow_nil.
Qed.

Lemma csvRows_all_or_nothing_witness :
  csvRows [Samples.workflow; Samples.broken] = Throw TypeError.
Proof.
  apply (proj2 (csvRows_all_or_nothing [Samples.workflow; Samples.broken])).
  exists Samples.broken. split; [right; left | vm_compute; reflexivity].
Defined.

(** X3.  Nothing isolates a parameter: when the row of one context of one
    workflow cannot be made, the whole conversion throws. *)
Theorem failing_row_aborts_conversion (wfs : list JSON) (wf : JSON)
    (c : value * value * JSON) :
  wf ∈ wfs -> c ∈ contexts wf -> rowOf c = Throw TypeError ->
  csvRows wfs = Throw TypeError.
Proof.
  intros Hwf Hc Hthrow.
  destruct (result_cases (csvRows wfs)) as [[out Hout]|H]; [|exact H].
  apply csvRows_contexts in Hout.
  assert (Hin : c ∈ concat (contexts <$> wfs)).
  { now apply (elem_of_concat_fmap contexts wfs wf). }
  apply list_elem_of_lookup in Hin as [i Hi].
  destruct (Forall2_lookup_l _ _ _ _ _ Hout Hi) as (r & _ & Hr). congruence.
Qed.

Lemma failing_row_aborts_conversion_witness :
  csvRows [Samples.workflow; Samples.broken] = Throw TypeError.
Proof.
  apply (failing_row_aborts_conversion _ Samples.broken
           (Some (JStr "Create Job Form"), Some (JStr "A"), Samples.nullOption)).
  - right. left.
  - vm_compute. left.
  - vm_compute. reflexivity.
Defined.

(** ** Empty and ill-typed fields *)

Lemma get_not_null o k : o <> JNull -> get o k = Return (field o k).
Proof. destruct o; try reflexivity. contradiction. Qed.

(** X4.  A workflow with nothing to walk gives no rows and no error: its
    [parameterRequests] has no length or a zero one (absent, [null], a
    number, a boolean, an empty string or array) and its [stageRequests]
    is absent, [null] or an empty array.  This holds for a workflow that
    is a number, a string, a boolean or an array as well; [null] alone
    throws. *)
Theorem empty_workflow_adds_nothing (wf : JSON) (rows0 : list Row) :
  (wf <> JNull ->
   hasLength (field wf "parameterRequests") = false ->
   field wf "stageRequests" = None \/ field wf "stageRequests" = Some JNull
   \/ field wf "stageRequests" = Some (JArr []) ->
   processWorkflow wf rows0 = Return rows0)
  /\ processWorkflow JNull rows0 = Throw TypeError.
Proof.
  split; [|reflexivity].
  intros Hwf Hlen Hstages. unfold processWorkflow.
  rewrite !(get_not_null wf) by exact Hwf. simpl. rewrite Hlen. simpl.
  destruct Hstages as [->|[->| ->]]; reflexivity.
Qed.

Lemma empty_workflow_adds_nothing_witness :
  processWorkflow (JArr [Samples.workflow]) [] = Return [].
Proof.
  apply (proj1 (empty_workflow_adds_nothing (JArr [Samples.workflow]) []));
    [discriminate | reflexivity | left; reflexivity].
Defined.

(** X5.  Ill-typed sequences throw, whatever else the workflow holds: a
    [stageRequests] that is present, not [null] and not an array, and a
    [parameterRequests] that has a non-zero length without being an array
    (a non-empty string, an object with a truthy [length]). *)
Theorem ill_typed_requests_throw (wf : JSON) (rows0 : list Row) :
  (forall v, field wf "stageRequests" = Some v -> v <> JNull ->
             (forall l, v <> JArr l) ->
             processWorkflow wf rows0 = Throw TypeError)
  /\ (hasLength (field wf "parameterRequests") = true ->
      (forall l, field wf "parameterRequests" <> Some (JArr l)) ->
      processWorkflow wf rows0 = Throw TypeError).
Proof.
  split.
  - intros v Hv Hnull Harr.
    destruct (result_cases (processWorkflow wf rows0)) as [[out Hout]|H]; [|exact H].
    rewrite processWorkflow_pushes in Hout. unfold workflowRows in Hout. unbind.
    repeat match goal with Hg : get wf _ = _ |- _ => apply get_field in Hg; subst end.
    match goal with Hg : gatherOpt _ _ = _ |- _ => rewrite Hv in Hg; rename Hg into Hg' end.
    destruct v; try discriminate Hg'; try contradiction.
    now destruct (Harr l).
  - intros Hlen Harr.
    destruct (result_cases (processWorkflow wf rows0)) as [[out Hout]|H]; [|exact H].
    rewrite processWorkflow_pushes in Hout. unfold workflowRows in Hout. unbind.
    repeat match goal with Hg : get wf _ = _ |- _ => apply get_field in Hg; subst end.
    match goal with Hg : (if _ then _ else _) = _ |- _ =>
      rewrite Hlen in Hg; rename Hg into Hg' end.
    destruct (field wf "parameterRequests") as [[| | | |l|]|]; try discriminate Hg'.
    now destruct (Harr l).
Qed.

Lemma ill_typed_requests_throw_witness :
  processWorkflow
    (Samples.obj [("parameterRequests", JArr [Samples.fullName]);
                  ("stageRequests", Samples.review)]) []
  = Throw TypeError
  /\ processWorkflow (Samples.obj [("parameterRequests", JStr "none")]) []
     = Throw TypeError.
Proof.
  split.
  - apply (proj1 (ill_typed_requests_throw _ []) Samples.review);
      [vm_compute; reflexivity | discriminate | discriminate].
  - apply (proj2 (ill_typed_requests_throw _ []));
      [vm_compute; reflexivity | vm_compute; discriminate].
Defined.

(** ** Parameters that cannot be turned into a row *)

Lemma makeRow_options_throw stage task p :
  options p = Throw TypeError -> makeRow stage task p = Throw TypeError.
Proof.
  intros H. destruct (result_cases (makeRow stage task p)) as [[r Hr]|Hr]; [|exact Hr].
  apply makeRow_Return in Hr as (? & ? & ? & ? & _ & Ho & _). congruence.
Qed.

Lemma makeRow_rules_throw stage task p :
  rules p = Throw TypeError -> makeRow stage task p = Throw TypeError.
Proof.
  intros H. destruct (result_cases (makeRow stage task p)) as [[r Hr]|Hr]; [|exact Hr].
  apply makeRow_Return in Hr as (? & ? & ? & ? & _ & _ & _ & Hrl & _). congruence.
Qed.

Lemma names_null l : JNull ∈ l -> names l = Throw TypeError.
Proof. intros H. apply traverse_Throw. exists JNull. split; [exact H | reflexivity]. Qed.

(** X6.  [makeRow] throws on a parameter that is [null], on a [null]
    entry in [data] or in [data.choices], on a [rules] that is truthy
    without being an array, and on a [null] entry in [rules]. *)
Theorem makeRow_throws (stage task : value) (p : JSON) :
  makeRow stage task JNull = Throw TypeError
  /\ (forall l, field p "data" = Some (JArr l) -> JNull ∈ l ->
                makeRow stage task p = Throw TypeError)
  /\ (forall l, getOpt (field p "data") "choices" = Some (JArr l) -> JNull ∈ l ->
                makeRow stage task p = Throw TypeError)
  /\ (truthy (field p "rules") = true -> (forall l, field p "rules" <> Some (JArr l)) ->
      makeRow stage task p = Throw TypeError)
  /\ (forall l, field p "rules" = Some (JArr l) -> JNull ∈ l ->
                makeRow stage task p = Throw TypeError).
Proof.
  split; [reflexivity|].
  assert (p = JNull \/ p <> JNull) as [->|Hp]
    by (destruct p; [left; reflexivity | right; discriminate ..]).
  { repeat split; intros; reflexivity. }
  repeat split.
  - intros l Hdata Hnull. apply makeRow_options_throw.
    unfold options. rewrite (get_not_null p) by exact Hp. simpl.
    rewrite Hdata, (names_null l Hnull). reflexivity.
  - intros l Hchoices Hnull. apply makeRow_options_throw.
    unfold options. rewrite (get_not_null p) by exact Hp. simpl.
    destruct (field p "data") as [[| | | |l'|gs]|]; try discriminate Hchoices.
    rewrite Hchoices, (names_null l Hnull). reflexivity.
  - intros Htruthy Harr. apply makeRow_rules_throw.
    unfold rules. rewrite (get_not_null p) by exact Hp. simpl. rewrite Htruthy.
    destruct (field p "rules") as [[| | | |l|]|]; try reflexivity.
    now destruct (Harr l).
  - intros l Hrules Hnull. apply makeRow_rules_throw.
    unfold rules. rewrite (get_not_null p) by exact Hp. simpl. rewrite Hrules. simpl.
    assert (H : traverse (ruleText p) l = Throw TypeError).
    { apply traverse_Throw. exists JNull. split; [exact Hnull|].
      unfold ruleText. destruct (get p "label") as [v|]; [|apply Throw_TypeError].
      simpl. destruct (textOf v); [reflexivity | apply Throw_TypeError]. }
    now rewrite H.
Qed.

Lemma makeRow_throws_witness :
  makeRow None None Samples.nullOption = Throw TypeError.
Proof.
  destruct (makeRow_throws None None Samples.nullOption) as (_ & Hdata & _).
  apply (Hdata [JNull]); [vm_compute; reflexivity | left].
Defined.

(** X7.  Field Type follows the truthiness of [mandatory], not its being
    [true]: it is "Mandatory" for [true] and for any non-empty string
    (the text "false" included), array or object, and "Optional" when
    [mandatory] is absent, [null], [false] or the empty string. *)
Theorem mandatory_mapping (stage task : value) (p : JSON) (r : Row) :
  makeRow stage task p = Return r ->
  let m := field p "mandatory" in
  (Field_Type r = "Mandatory" \/ Field_Type r = "Optional")
  /\ (Field_Type r = "Mandatory" <-> truthy m = true)
  /\ (m = Some (JBool true) -> Field_Type r = "Mandatory")
  /\ (forall s, s <> "" -> m = Some (JStr s) -> Field_Type r = "Mandatory")
  /\ (forall l, m = Some (JArr l) -> Field_Type r = "Mandatory")
  /\ (forall fs, m = Some (JObj fs) -> Field_Type r = "Mandatory")
  /\ (m = None \/ m = Some JNull \/ m = Some (JBool false) \/ m = Some (JStr "") ->
      Field_Type r = "Optional").
Proof.
  intros H m.
  apply makeRow_Return in H as (? & ? & ? & ? & _ & _ & _ & _ & ->). simpl. fold m.
  split; [destruct (truthy m); auto|].
  split; [destruct (truthy m); split; (reflexivity || discriminate)|].
  split; [intros ->; reflexivity|].
  split.
  { intros s Hs ->. simpl. now destruct (String.eqb_spec s ""). }
  split; [intros l ->; reflexivity|].
  split; [intros fs ->; reflexivity|].
  intros [->|[->|[->| ->]]]; reflexivity.
Qed.

Lemma mandatory_mapping_witness :
  exists r,
    makeRow None None Samples.fullName = Return r /\ Field_Type r = "Mandatory".
Proof.
  eexists. split; [vm_compute; reflexivity|].
  match goal with |- Field_Type ?r = _ =>
    destruct (mandatory_mapping None None Samples.fullName r)
      as (_ & _ & Htrue & _); [vm_compute; reflexivity|]
  end.
  apply Htrue. vm_compute. reflexivity.
Defined.

(** ** Texts of well-formed rules and options *)

Lemma join_strings (ns : list string) (sep : string) :
  join (Some <$> (JStr <$> ns)) sep = Return (String.concat sep ns).
Proof.
  unfold join.
  assert (H : traverse elementText (Some <$> (JStr <$> ns)) = Return ns).
  { induction ns as [|n ns IH]; csimpl; [reflexivity|]. now rewrite IH. }
  now rewrite H.
Qed.

Lemma rules_ext (fs fs' : gmap string JSON) :
  fs' !! "label" = fs !! "label" -> fs' !! "rules" = fs !! "rules" ->
  rules (JObj fs') = rules (JObj fs).
Proof.
  intros Hlabel Hrules. unfold rules. simpl. rewrite Hrules.
  destruct (if truthy (fs !! "rules") then fs !! "rules" else Some (JArr []))
    as [[| | | |l|]|]; try reflexivity.
  rewrite (traverse_ext (ruleText (JObj fs')) (ruleText (JObj fs))); [reflexivity|].
  intros r _. unfold ruleText. simpl. now rewrite Hlabel.
Qed.

(** X8.  Rules whose [input] and [show.parameters] are arrays of strings
    are rendered, each as "Visible if [label] is [inputs]. Shows
    parameters: [names]" with the owning parameter's label and ", "
    between the entries, and joined with "; ". *)
Theorem rules_of_strings (p : JSON) (label : string) (rs : list JSON)
    (specs : list (list string * list string)) :
  field p "label" = Some (JStr label) ->
  field p "rules" = Some (JArr rs) ->
  Forall2 (fun r spec =>
             field r "input" = Some (JArr (JStr <$> spec.1))
             /\ getOpt (field r "show") "parameters" = Some (JArr (JStr <$> spec.2)))
    rs specs ->
  rules p = Return (String.concat "; " (renderRule label <$> specs)).
Proof.
  intros Hlabel Hrules Hspecs.
  assert (Hp : p <> JNull) by (intros ->; discriminate Hlabel).
  unfold rules. rewrite (get_not_null p) by exact Hp. simpl. rewrite Hrules. simpl.
  assert (H : traverse (ruleText p) rs = Return (renderRule label <$> specs)).
  { clear Hrules. apply traverse_Return.
    induction Hspecs as [|r spec rs specs [Hin Hshow] _ IH]; csimpl; [constructor|].
    constructor; [|exact IH].
    assert (Hr : r <> JNull) by (intros ->; discriminate Hin).
    unfold ruleText. rewrite (get_not_null p) by exact Hp. simpl. rewrite Hlabel. simpl.
    rewrite !(get_not_null r) by exact Hr. simpl. rewrite Hin. simpl.
    rewrite join_strings. simpl. rewrite Hshow. simpl. rewrite join_strings. reflexivity. }
  now rewrite H.
Qed.

Lemma rules_of_strings_witness :
  rules Samples.status
  = Return "Visible if [Status] is [Yes]. Shows parameters: [Comment]".
Proof.
  apply (rules_of_strings Samples.status "Status"
           [Samples.obj [ ("input", JArr [JStr "Yes"]);
                          ("show", Samples.obj [("parameters", JArr [JStr "Comment"])]) ]]
           [(["Yes"], ["Comment"])]).
  - vm_compute. reflexivity.
  - vm_compute. reflexivity.
  - repeat constructor; vm_compute; reflexivity.
Defined.

(** X9.  The two shapes of the options are interchangeable: moving the
    array of [data] under [data.choices] changes neither the options
    text nor any field of the row. *)
Theorem data_array_or_choices (fs gs : gmap string JSON) (l : list JSON)
    (stage task : value) :
  fs !! "data" = Some (JArr l) ->
  gs !! "choices" = Some (JArr l) ->
  options (JObj (<["data" := JObj gs]> fs)) = options (JObj fs)
  /\ makeRow stage task (JObj (<["data" := JObj gs]> fs)) = makeRow stage task (JObj fs).
Proof.
  intros Hdata Hchoices.
  assert (Ho : options (JObj (<["data" := JObj gs]> fs)) = options (JObj fs)).
  { unfold options. simpl. rewrite lookup_insert_eq, Hdata. simpl. now rewrite Hchoices. }
  split; [exact Ho|].
  unfold makeRow. rewrite Ho.
  rewrite (rules_ext fs (<["data" := JObj gs]> fs))
    by (now rewrite lookup_insert_ne by discriminate).
  unfold desc. simpl. now rewrite !lookup_insert_ne by discriminate.
Qed.

Lemma data_array_or_choices_witness :
  makeRow None None
    (Samples.obj [("type", JStr "DATE");
                  ("data", Samples.obj
                     [("choices", JArr [Samples.obj [("name", JStr "Low")]])])])
  = makeRow None None
      (Samples.obj [("type", JStr "DATE");
                    ("data", JArr [Samples.obj [("name", JStr "Low")]])]).
Proof.
  destruct (data_array_or_choices
              (list_to_map [("type", JStr "DATE");
                            ("data", JArr [Samples.obj [("name", JStr "Low")]])])
              (list_to_map [("choices", JArr [Samples.obj [("name", JStr "Low")]])])
              [Samples.obj [("name", JStr "Low")]]
              None None) as [_ H]; [vm_compute; reflexivity .. |].
  etransitivity; [|exact H]. vm_compute. reflexivity.
Defined.

(** X10.  When the options are objects whose names are strings, the
    options text is the names joined with " • ", and the description
    lacks the options suffix only when there is no option or the only
    option has an empty name; otherwise it ends with
    " Available Options: • " and the joined names. *)
Theorem options_of_strings (p : JSON) (ds : list JSON) (ns : list string) :
  field p "data" = Some (JArr ds)
  \/ getOpt (field p "data") "choices" = Some (JArr ds) ->
  Forall2 (fun d n => field d "name" = Some (JStr n)) ds ns ->
  options p = Return (String.concat " • " ns)
  /\ (optionsSuffix (String.concat " • " ns) = "" <-> ns = [] \/ ns = [""])
  /\ forall stage task r,
       makeRow stage task p = Return r -> ns <> [] -> ns <> [""] ->
       exists base,
         Activity_Description_in_detail r
         = base +:+ " Available Options: • " +:+ String.concat " • " ns.
Proof.
  intros Hdata Hnames.
  assert (Hp : p <> JNull) by (intros ->; destruct Hdata as [H|H]; discriminate H).
  assert (Hns : names ds = Return (Some <$> (JStr <$> ns))).
  { unfold names. apply traverse_Return.
    clear Hdata.
    induction Hnames as [|d n ds ns Hd _ IH]; csimpl; [constructor|].
    constructor; [|exact IH].
    rewrite get_not_null by (intros ->; discriminate Hd). now rewrite Hd. }
  assert (Ho : options p = Return (String.concat " • " ns)).
  { unfold options. rewrite (get_not_null p) by exact Hp. simpl.
    destruct Hdata as [->|Hchoices].
    - rewrite Hns. simpl. apply join_strings.
    - destruct (field p "data") as [[| | | |l|gs]|]; try discriminate Hchoices.
      simpl in Hchoices |- *. rewrite Hchoices, Hns. simpl. apply join_strings. }
  assert (Hsuffix : optionsSuffix (String.concat " • " ns) = "" <-> ns = [] \/ ns = [""]).
  { rewrite <- (concat_empty " • " ns) by discriminate.
    unfold optionsSuffix. destruct (String.eqb_spec (String.concat " • " ns) "") as [->|Hne].
    - tauto.
    - split; [discriminate | contradiction]. }
  split; [exact Ho|]. split; [exact Hsuffix|].
  intros stage task r Hr Hnil Hblank.
  apply makeRow_Return in Hr as (label & opts & d & rl & _ & Ho' & Hd & _ & ->).
  rewrite Ho in Ho'. injection Ho' as <-.
  apply desc_Return in Hd as (key & _ & ->).
  exists (memberText (lookupMember (fieldLogic label) key)). simpl.
  unfold optionsSuffix.
  destruct (String.eqb_spec (String.concat " • " ns) "") as [Hempty|_]; [|reflexivity].
  apply (concat_empty " • " ns) in Hempty as [|]; [contradiction.. | discriminate].
Qed.

Lemma options_of_strings_witness :
  options Samples.priority = Return "Low • High".
Proof.
  apply (options_of_strings Samples.priority
           [Samples.obj [("name", JStr "Low")]; Samples.obj [("name", JStr "High")]]
           ["Low"; "High"]).
  - left. vm_compute. reflexivity.
  - repeat constructor.
Defined.

(** ** Documents and uploads *)

Lemma jsonObjects_not_arrays (wfs : list JSON) :
  Forall (fun wf => forall l, wf <> JArr l) wfs -> jsonObjects wfs = wfs.
Proof.
  unfold jsonObjects. induction 1 as [|wf wfs Hwf _ IH]; csimpl; [reflexivity|].
  rewrite IH. destruct wf; try reflexivity. now destruct (Hwf l).
Qed.

(** X11.  One document holding an array of workflows gives the rows of
    as many documents holding one workflow each, provided no workflow is
    itself an array (arrays are unpacked one level only). *)
Theorem array_document_as_documents (wfs : list JSON) :
  Forall (fun wf => forall l, wf <> JArr l) wfs ->
  jsonObjects [JArr wfs] = jsonObjects wfs
  /\ csvRows (jsonObjects [JArr wfs]) = csvRows (jsonObjects wfs).
Proof.
  intros H. rewrite (jsonObjects_not_arrays wfs H).
  unfold jsonObjects. simpl. now rewrite app_nil_r.
Qed.

Lemma array_document_as_documents_witness :
  csvRows (jsonObjects [JArr [Samples.workflow; Samples.workflow]])
  = csvRows (jsonObjects [Samples.workflow; Samples.workflow]).
Proof.
  apply (array_document_as_documents [Samples.workflow; Samples.workflow]).
  repeat constructor; discriminate.
Defined.

Lemma readEntries_Some {parse : string -> option JSON} contents acc objs :
  readEntries parse contents acc = Some objs <->
  exists docs,
    Forall2 (fun content doc => exists c, content = Some c /\ parse c = Some doc)
      contents docs
    /\ objs = acc ++ jsonObjects docs.
Proof.
  revert acc. induction contents as [|content contents IH]; intros acc; simpl.
  - split.
    + intros [= <-]. exists []. split; [constructor | now rewrite app_nil_r].
    + intros (docs & Hdocs & ->). inversion Hdocs. now rewrite app_nil_r.
  - destruct content as [c|]; [destruct (parse c) as [parsed|] eqn:Hc|].
    + rewrite IH. split.
      * intros (docs & Hdocs & ->). exists (parsed :: docs). split.
        -- constructor; eauto.
        -- unfold jsonObjects. csimpl. now rewrite app_assoc.
      * intros (docs & Hdocs & ->).
        inversion Hdocs as [|? doc ? docs' Hhead Hrest]; subst.
        destruct Hhead as (c' & Hc1 & Hc2). simplify_eq.
        exists docs'. split; [exact Hrest|].
        unfold jsonObjects. csimpl. now rewrite app_assoc.
    + split; [discriminate|]. intros (docs & Hdocs & _).
      inversion Hdocs as [|? doc ? docs' Hhead Hrest]; subst.
      destruct Hhead as (c' & Hc1 & Hc2). simplify_eq.
    + split; [discriminate|]. intros (docs & Hdocs & _).
      inversion Hdocs as [|? doc ? docs' Hhead Hrest]; subst.
      destruct Hhead as (c' & Hc1 & Hc2). simplify_eq.
Qed.

(** X12.  What an upload decodes to.  A file whose name ends in ".zip"
    gives workflows exactly when the archive opens and every entry is read
    and parsed, and they are the entries of the parsed documents in the
    order in which [Object.keys(zip.files)] lists the entries (the
    listing is taken as given: it is not the stored order of the archive
    when entry names look like integers); any other file gives the
    entries of its one parsed document. *)
Theorem decode_Some {File : Type} (name : File -> string)
    (archive : File -> option (list (option string)))
    (text : File -> option string) (parse : string -> option JSON)
    (file : File) (objs : list JSON) :
  (endsWith (name file) ".zip" = true ->
   (decode name archive text parse file = Some objs <->
    exists contents docs,
      archive file = Some contents
      /\ Forall2 (fun content doc => exists c, content = Some c /\ parse c = Some doc)
           contents docs
      /\ objs = jsonObjects docs))
  /\ (endsWith (name file) ".zip" = false ->
      (decode name archive text parse file = Some objs <->
       exists t doc, text file = Some t /\ parse t = Some doc /\ objs = jsonObjects [doc])).
Proof.
  unfold decode. split; intros ->.
  - destruct (archive file) as [contents|].
    + rewrite readEntries_Some. split.
      * intros (docs & Hdocs & ->). eauto.
      * intros (contents' & docs & [= <-] & Hdocs & ->). eauto.
    + split; [discriminate|]. intros (? & ? & H & _). discriminate H.
  - unfold jsonObjects. simpl.
    destruct (text file) as [t|]; [destruct (parse t) as [parsed|] eqn:Ht|].
    + split.
      * intros [= <-]. exists t, parsed. now rewrite app_nil_r.
      * intros (t' & doc & [= <-] & Hdoc & ->). rewrite app_nil_r. congruence.
    + split; [discriminate|]. intros (t' & doc & [= <-] & Hdoc & _). congruence.
    + split; [discriminate|]. intros (? & ? & H & _). discriminate H.
Qed.

Lemma handleFileUpload_dragActive {File : Type} (name : File -> string)
    (archive : File -> option (list (option string)))
    (text : File -> option string) (parse : string -> option JSON)
    (file : File) (st : State) :
  dragActive (handleFileUpload name archive text parse file st).1 = dragActive st.
Proof.
  unfold handleFileUpload.
  destruct (decode name archive text parse file) as [objs|]; [|reflexivity].
  destruct (csvRows objs); reflexivity.
Qed.

(** X13.  An upload replaces the table or leaves it alone.  After
    [handleFileUpload], [loading] is off and the drag and theme flags are
    as before; either the file decoded and every workflow was converted,
    the rows are those of the new file alone and no alert is shown, or
    something was thrown, the rows are the ones shown before and the
    invalid-file alert is shown once. *)
Theorem handleFileUpload_all_or_nothing {File : Type} (name : File -> string)
    (archive : File -> option (list (option string)))
    (text : File -> option string) (parse : string -> option JSON)
    (file : File) (st : State) :
  let after := handleFileUpload name archive text parse file st in
  loading after.1 = false
  /\ dragActive after.1 = dragActive st
  /\ darkMode after.1 = darkMode st
  /\ ((exists objs out,
          decode name archive text parse file = Some objs
          /\ csvRows objs = Return out
          /\ rows after.1 = out /\ after.2 = [])
      \/ ((decode name archive text parse file = None
           \/ exists objs, decode name archive text parse file = Some objs
                           /\ csvRows objs = Throw TypeError)
          /\ rows after.1 = rows st /\ after.2 = [invalidFile])).
Proof.
  unfold handleFileUpload.
  destruct (decode name archive text parse file) as [objs|].
  - destruct (csvRows objs) as [out|[]] eqn:Hout; simpl.
    + repeat split. left. eauto 6.
    + repeat split. right. eauto 6.
  - simpl. repeat split. right. auto.
Qed.

(** X14.  A drop handles the first file only: the other dropped files
    change nothing, a drop without files only ends the drag highlight,
    and the highlight is off after every drop. *)
Theorem handleDrop_first_file_only {File : Type} (name : File -> string)
    (archive : File -> option (list (option string)))
    (text : File -> option string) (parse : string -> option JSON)
    (st : State) :
  (forall file others,
      handleDrop name archive text parse (Some (file :: others)) st
      = handleDrop name archive text parse (Some [file]) st)
  /\ (forall files,
        files = None \/ files = Some [] ->
        handleDrop name archive text parse files st = (setDragActive false st, []))
  /\ (forall files,
        dragActive (handleDrop name archive text parse files st).1 = false).
Proof.
  split; [reflexivity|]. split.
  - intros files [->| ->]; reflexivity.
  - intros files. unfold handleDrop.
    destruct (files ≫= head) as [file|]; [|reflexivity].
    apply handleFileUpload_dragActive.
Qed.

Lemma decode_Some_witness :
  decode UploadSamples.name UploadSamples.archive UploadSamples.text
    UploadSamples.parse "flows.zip"
  = Some (jsonObjects [Samples.workflow; JArr [Samples.workflow; Samples.workflow]]).
Proof.
  apply (proj1 (decode_Some UploadSamples.name UploadSamples.archive UploadSamples.text
                  UploadSamples.parse "flows.zip" _)); [vm_compute; reflexivity|].
  exists [Some "w"; Some "ws"],
         [Samples.workflow; JArr [Samples.workflow; Samples.workflow]].
  split; [reflexivity|]. split; [|reflexivity].
  repeat constructor; eexists; (split; [reflexivity | vm_compute; reflexivity]).
Defined.

Lemma handleDrop_first_file_only_witness :
  handleDrop UploadSamples.name UploadSamples.archive UploadSamples.text
    UploadSamples.parse (Some []) UploadSamples.idle
  = (setDragActive false UploadSamples.idle, []).
Proof.
  destruct (handleDrop_first_file_only UploadSamples.name UploadSamples.archive
              UploadSamples.text UploadSamples.parse UploadSamples.idle)
    as (_ & Hnone & _).
  apply Hnone. right. reflexivity.
Defined.

(** X15.  Whenever the conversion of an upload returns, it has one row
    per parameter of the uploaded workflows: as many rows as the
    workflows have parameters in all. *)
Theorem csvRows_row_count (wfs : list JSON) (out : list Row) :
  csvRows wfs = Return out -> length out = sum_list (parameterCount <$> wfs).
Proof.
  intros H. apply csvRows_contexts, Forall2_length in H. rewrite <- H.
  apply length_concat_fmap, contexts_length.
Qed.

Lemma csvRows_row_count_witness :
  exists out, csvRows [Samples.workflow; JArr []; Samples.workflow] = Return out
              /\ length out = 6.
Proof.
  eexists. split; [vm_compute; reflexivity|].
  match goal with |- length ?out = _ =>
    apply (csvRows_row_count [Samples.workflow; JArr []; Samples.workflow] out)
  end.
  vm_compute. reflexivity.
Defined.
